(** * mongoose-elasticsearch-xp: the synchronisation pipeline of lib/index.js

    A shallow embedding of the per-document indexing protocol
    ([_indexDoc], [indexDoc], [unsetFields], [removeDoc]), of the save hooks
    ([preSave], [postSave]) and of the streaming synchroniser
    ([synchronize] with its handlers [onData], [onClose], [onSent],
    [onError] and [finalize]).

    JavaScript objects used as maps are [gmap string _]; the asynchronous
    backend is a tape of replies consumed one per request (document path)
    or a sequence of events delivered to the handlers (synchroniser). *)

From Stdlib Require Import Ascii String.
From stdpp Require Import gmap strings list.
From Equations Require Import Equations.

(** ** JavaScript values *)

#[warnings="-register-all"]
Inductive JsVal : Type :=
| JUndefined
| JNull
| JBool (b : bool)
| JNum (n : Z)
| JStr (s : string)
| JObj (o : gmap string JsVal).

Abbreviation JsObj := (gmap string JsVal).

(** An error object handed to a node-style callback; [err.status] is the
    backend status code when there is one. *)
Record EsError : Type := mkError {
  status : option Z;
  message : string
}.

(** [err.status === 404] *)
Definition is_404 (err : EsError) : bool :=
  match status err with
  | Some n => bool_decide (n = 404%Z)
  | None => false
  end.

Definition Result : Type := JsVal.

(** ** The search backend client, at its interface *)

Inductive Method : Type := MIndex | MUpdate | MDelete.

(** The parameter object of [client.index], [client.update], [client.delete]. *)
Record Request : Type := mkRequest {
  rq_method : Method;
  rq_index : string;
  rq_type : string;
  rq_id : string;
  rq_body : option JsVal
}.

(** What the backend hands to the callback [(err, result)]. *)
Inductive Reply : Type :=
| ReplyErr (err : EsError)
| ReplyOk (result : Result).

(** ** Documents and resolved options *)

(** [doc._mexp]: the pending mutation context left by [preSave]. A field
    that was never assigned is [None] (JavaScript [undefined]). *)
Record Mexp : Type := mkMexp {
  wasNew : option bool;
  unset : option (list string)
}.

Record Doc : Type := mkDoc {
  _id : string;
  isNew : bool;
  fields : JsObj;
  _mexp : option Mexp
}.

Definition Mapping : Type := JsObj.

(** The object returned by [esOptions()], with the entries the pipeline reads. *)
Record EsOptions : Type := mkEsOptions {
  index : string;
  type : string;
  mapping : Mapping;
  filter : option (Doc -> bool);
  script : bool
}.

(** [!esOptions.filter || esOptions.filter(doc)] *)
Definition passes_filter (o : EsOptions) (doc : Doc) : bool :=
  match filter o with
  | None => true
  | Some f => f doc
  end.

(** ** Observable effects of the document path *)

Inductive Scope : Type :=
| OnDoc          (* doc.emit *)
| OnModel.       (* doc.constructor.emit *)

Inductive Effect : Type :=
| Call (rq : Request)
| Emit (on : Scope) (event : string) (err : option EsError) (res : option Result).

Record World : Type := mkWorld {
  replies : list Reply;     (* what the backend will answer, in order *)
  trace : list Effect       (* what the code did so far, in order *)
}.

Definition record_effect (e : Effect) (w : World) : World :=
  {| replies := replies w; trace := trace w ++ [e] |}.

(** ** A small promise monad

    [utils.run(callback, (resolve, reject) => ...)] settles at most once;
    [Pending] is a promise whose backend reply never arrived. *)

Inductive Settled (A : Type) : Type :=
| Resolved (a : A)
| Rejected (err : EsError)
| Pending.
Arguments Resolved {A} a.
Arguments Rejected {A} err.
Arguments Pending {A}.

Definition Async (A : Type) : Type := World -> Settled A * World.

Definition resolve {A} (a : A) : Async A := fun w => (Resolved a, w).
Definition reject {A} (err : EsError) : Async A := fun w => (Rejected err, w).

(** [p.then(k)] *)
Definition and_then {A B} (p : Async A) (k : A -> Async B) : Async B :=
  fun w =>
    match p w with
    | (Resolved a, w') => k a w'
    | (Rejected err, w') => (Rejected err, w')
    | (Pending, w') => (Pending, w')
    end.

(** [p.catch(h)] *)
Definition catch {A} (p : Async A) (h : EsError -> Async A) : Async A :=
  fun w =>
    match p w with
    | (Rejected err, w') => h err w'
    | r => r
    end.

Definition emit (on : Scope) (event : string)
    (err : option EsError) (res : option Result) : Async unit :=
  fun w => (Resolved tt, record_effect (Emit on event err res) w).

(** [Async] with stdpp's monad notations: [x ← p; k] is [p.then(x => k)]. *)
#[global] Instance Async_ret : MRet Async := fun A a => resolve a.
#[global] Instance Async_bind : MBind Async := fun A B k p => and_then p k.

(** One request to the backend: it is recorded, and the callback fires with
    the next reply of the tape, or never when the tape is exhausted. *)
Definition client (rq : Request) : Async Result :=
  fun w =>
    let tr := trace w ++ [Call rq] in
    match replies w with
    | [] => (Pending, {| replies := []; trace := tr |})
    | ReplyErr err :: rest => (Rejected err, {| replies := rest; trace := tr |})
    | ReplyOk r :: rest => (Resolved r, {| replies := rest; trace := tr |})
    end.

(** How one request settles, read off the tape of replies. *)
Definition settle (l : list Reply) : Settled Result :=
  match l with
  | [] => Pending
  | ReplyErr err :: _ => Rejected err
  | ReplyOk r :: _ => Resolved r
  end.

(** ** Arguments of [indexDoc] and [unsetFields] *)

(** [update.unset]: undefined, one field name, or an array of names. *)
Inductive UnsetArg : Type :=
| UnsetUndefined
| UnsetString (s : string)
| UnsetArray (l : list string).

(** [@param {Boolean|Object} [update]] *)
Inductive UpdateArg : Type :=
| UpdUndefined
| UpdBool (b : bool)
| UpdObject (unset_arg : UnsetArg).

Definition truthy_update (u : UpdateArg) : bool :=
  match u with
  | UpdUndefined => false
  | UpdBool b => b
  | UpdObject _ => true
  end.

Definition truthy_unset (u : UnsetArg) : bool :=
  match u with
  | UnsetUndefined => false
  | UnsetString s => negb (bool_decide (s = EmptyString))
  | UnsetArray _ => true
  end.

(** [typeof update.unset === 'string' ? [update.unset] : update.unset] *)
Definition unset_list (u : UnsetArg) : list string :=
  match u with
  | UnsetUndefined => []
  | UnsetString s => [s]
  | UnsetArray l => l
  end.

(** [@param {String|Array} fields] *)
Inductive FieldsArg : Type :=
| FieldsString (s : string)
| FieldsArray (l : list string).

(** [fields.forEach(field => { obj[field] = null; })] *)
Definition assign_nulls (obj : JsObj) (names : list string) : JsObj :=
  foldl (fun acc field => <[field := JNull]> acc) obj names.

(** [ctx._source.remove("field")], the removal expression of one field. *)
Definition dquote : string := String "034"%char EmptyString.

Definition removal (field : string) : string :=
  "ctx._source.remove(" +:+ dquote +:+ field +:+ dquote +:+ ")".

(** [delete doc._mexp] *)
Definition delete_mexp (doc : Doc) : Doc :=
  {| _id := _id doc; isNew := isNew doc; fields := fields doc; _mexp := None |}.

(** [doc._mexp = m] *)
Definition set_mexp (m : Mexp) (doc : Doc) : Doc :=
  {| _id := _id doc; isNew := isNew doc; fields := fields doc; _mexp := Some m |}.

(** Case analysis that keeps the equation, for the termination proof below. *)
Definition inspect {A} (a : A) : {b | a = b} := exist _ a eq_refl.

(** ** Bulk Queue *)

(** One entry of a bulk batch: the header [{index: {_index, _type, _id}}]
    and the serialized document pushed with it. *)
Record Operation : Type := mkOperation {
  op_index : string;
  op_type : string;
  op_id : string;
  op_payload : JsObj
}.

Module Bulker.

(** Modelled from the spec: lib/bulker.js (the [Bulker] class required by
    lib/index.js) is missing from the sources. Section 4.1 of the
    specification gives its contract: [push] appends an operation
    descriptor to the current batch and returns whether a flush was
    triggered because the threshold was reached; [filled] tells whether
    the current batch is non-empty; [flush] sends the accumulated batch
    as one request and clears it, and does nothing on an empty batch. *)
Record t : Type := mk {
  size : nat;                 (* the configured threshold *)
  buffer : list Operation     (* the current, unflushed batch *)
}.

Definition create (threshold : nat) : t := {| size := threshold; buffer := [] |}.

Definition filled (b : t) : bool :=
  match buffer b with
  | [] => false
  | _ :: _ => true
  end.

(** The request sent, if any, and the queue afterwards. *)
Definition flush (b : t) : option (list Operation) * t :=
  match buffer b with
  | [] => (None, b)
  | batch => (Some batch, {| size := size b; buffer := [] |})
  end.

(** Whether a flush was triggered, the request it sent, the queue afterwards. *)
Definition push (op : Operation) (b : t) : bool * option (list Operation) * t :=
  let b' := {| size := size b; buffer := buffer b ++ [op] |} in
  if size b <=? length (buffer b')
  then (true, fst (flush b'), snd (flush b'))
  else (false, None, b').

(** Pushing a sequence of operations one by one: the requests sent, in
    order, and the queue afterwards. *)
Fixpoint push_all (ops : list Operation) (b : t) : list (list Operation) * t :=
  match ops with
  | [] => ([], b)
  | op :: rest =>
      let '(_, sent, b') := push op b in
      let '(more, b'') := push_all rest b' in
      (option_list sent ++ more, b'')
  end.

End Bulker.

(** ** Stream Synchronizer: state and effects *)

(** What [model.emit] carries during a synchronize run. *)
Inductive Payload : Type :=
| PDoc (doc : Doc)
| PErr (err : EsError)
| PLen (len : nat).

Inductive SyncEffect : Type :=
| StreamPause                                  (* stream.pause() *)
| StreamResume                                 (* stream.resume() *)
| ModelEmit (event : string) (arg : Payload)   (* model.emit(event, arg) *)
| BulkRequest (batch : list Operation)         (* client.bulk({body}) *)
| RefreshRequest (idx : string)                (* client.indices.refresh({index}) *)
| SyncResolve (result : Result)
| SyncReject (err : EsError).

(** The closure state of one [synchronize] call, with the stream and the
    backend requests it is waiting for. *)
Record Session : Type := mkSession {
  bulker : Bulker.t;
  paused : bool;                        (* the cursor's flow control *)
  streamClosed : bool;
  listening : bool;                     (* onError/onSent registered on the bulker *)
  in_flight : list (list Operation);    (* bulk requests not yet answered *)
  refreshing : bool;                    (* a refresh request not yet answered *)
  outcome : option (Settled Result);    (* how the call was settled, once it is *)
  log : list SyncEffect
}.

Definition set_bulker (b : Bulker.t) (s : Session) : Session :=
  mkSession b (paused s) (streamClosed s) (listening s) (in_flight s)
            (refreshing s) (outcome s) (log s).
Definition set_paused (p : bool) (s : Session) : Session :=
  mkSession (bulker s) p (streamClosed s) (listening s) (in_flight s)
            (refreshing s) (outcome s) (log s).
Definition set_streamClosed (c : bool) (s : Session) : Session :=
  mkSession (bulker s) (paused s) c (listening s) (in_flight s)
            (refreshing s) (outcome s) (log s).
Definition set_listening (l : bool) (s : Session) : Session :=
  mkSession (bulker s) (paused s) (streamClosed s) l (in_flight s)
            (refreshing s) (outcome s) (log s).
Definition set_in_flight (f : list (list Operation)) (s : Session) : Session :=
  mkSession (bulker s) (paused s) (streamClosed s) (listening s) f
            (refreshing s) (outcome s) (log s).
Definition set_refreshing (r : bool) (s : Session) : Session :=
  mkSession (bulker s) (paused s) (streamClosed s) (listening s) (in_flight s)
            r (outcome s) (log s).
Definition set_outcome (r : option (Settled Result)) (s : Session) : Session :=
  mkSession (bulker s) (paused s) (streamClosed s) (listening s) (in_flight s)
            (refreshing s) r (log s).
Definition say (e : SyncEffect) (s : Session) : Session :=
  mkSession (bulker s) (paused s) (streamClosed s) (listening s) (in_flight s)
            (refreshing s) (outcome s) (log s ++ [e]).

Definition stream_pause (s : Session) : Session := say StreamPause (set_paused true s).
Definition stream_resume (s : Session) : Session := say StreamResume (set_paused false s).

(** A request leaving the bulker goes to [client.bulk] and stays in flight
    until the backend answers. *)
Definition submit (sent : option (list Operation)) (s : Session) : Session :=
  match sent with
  | None => s
  | Some batch => say (BulkRequest batch) (set_in_flight (in_flight s ++ [batch]) s)
  end.

Definition bulker_push (op : Operation) (s : Session) : bool * Session :=
  let '(sending, sent, b) := Bulker.push op (bulker s) in
  (sending, submit sent (set_bulker b s)).

Definition bulker_flush (s : Session) : Session :=
  let '(sent, b) := Bulker.flush (bulker s) in
  submit sent (set_bulker b s).

(** ** Vocabulary for the statements about the hooks *)

(** The pair of 'es-indexed' notifications for an outcome: one on the
    document, one on its model, none while the outcome is pending. *)
Definition indexed_notification (r : Settled Result) : list Effect :=
  match r with
  | Resolved res =>
      [Emit OnDoc "es-indexed" None (Some res);
       Emit OnModel "es-indexed" None (Some res)]
  | Rejected err =>
      [Emit OnDoc "es-indexed" (Some err) None;
       Emit OnModel "es-indexed" (Some err) None]
  | Pending => []
  end.

(** The same for 'es-removed'. *)
Definition removed_notification (r : Settled Result) : list Effect :=
  match r with
  | Resolved res =>
      [Emit OnDoc "es-removed" None (Some res);
       Emit OnModel "es-removed" None (Some res)]
  | Rejected err =>
      [Emit OnDoc "es-removed" (Some err) None;
       Emit OnModel "es-removed" (Some err) None]
  | Pending => []
  end.

Definition filtered_notification : list Effect :=
  [Emit OnDoc "es-filtered" None None; Emit OnModel "es-filtered" None None].

(** The world after some more effects. *)
Definition told (l : list Effect) (w : World) : World :=
  {| replies := replies w; trace := trace w ++ l |}.

(** The requests among some effects, in order. *)
Fixpoint calls (l : list Effect) : list Request :=
  match l with
  | [] => []
  | Call rq :: rest => rq :: calls rest
  | Emit _ _ _ _ :: rest => calls rest
  end.

(** ** JavaScript operators read by the static functions *)

(** Truthiness of a value, as [if (v)] and [!v] see it. *)
Definition js_truthy (v : JsVal) : bool :=
  match v with
  | JUndefined => false
  | JNull => false
  | JBool b => b
  | JNum n => negb (bool_decide (n = 0%Z))
  | JStr s => negb (bool_decide (s = EmptyString))
  | JObj _ => true
  end.

(** [a || b] *)
Definition js_or (a b : JsVal) : JsVal := if js_truthy a then a else b.

(** [v.k] on a value that is not null or undefined. *)
Definition js_get (v : JsVal) (k : string) : JsVal :=
  match v with
  | JObj o => default JUndefined (o !! k)
  | _ => JUndefined
  end.

(** [v === false] *)
Definition is_false (v : JsVal) : bool :=
  match v with
  | JBool false => true
  | _ => false
  end.

(** An optional argument that may also be the callback given in its place. *)
Inductive Arg : Type :=
| ArgFunction               (* [typeof arg === 'function'] *)
| ArgValue (v : JsVal).

(** [options.x === false ? false : options.x || esOptions.x], the way the
    static functions let a call override a configured entry. *)
Definition override (given configured : JsVal) : JsVal :=
  if is_false given then JBool false else js_or given configured.

(** ** Static functions: [createMapping], [refresh], [count] *)

(** The further entries of [esOptions()] that the static functions read. *)
Record Extras : Type := mkExtras {
  mappingSettings : JsVal;
  refreshDelay : JsVal;
  countOnly : JsVal;
  hydrate : JsVal;
  idsOnly : JsVal
}.

(** The parameter object of [client.count] and [client.search]. *)
Record Params : Type := mkParams {
  p_index : string;
  p_type : string;
  p_q : option string;          (* [params.q] *)
  p_body : option JsVal;        (* [params.body] *)
  p_source : option bool        (* [params._source] *)
}.

(** What a static function asks of its collaborators, in order. *)
Inductive StaticEffect : Type :=
| IndicesExists (idx : string)
| IndicesPutMapping (idx ty : string) (body : JsVal)
| IndicesCreate (idx : string) (body : JsVal)
| IndicesRefresh (idx : string)
| SetTimeout (delay : JsVal)
| ClientCount (params : Params)
| ClientSearch (params : Params)
| ModelFind (ids : list string) (select opts : JsVal).

(** [createMapping(settings, callback)]; the tape holds the answers to
    [exists], then to [create] when it is called, then to [putMapping]. *)
Definition createMapping (settings : Arg) (o : EsOptions) (x : Extras)
    (tape : list Reply) : list StaticEffect * Settled Result :=
  let settings :=
    match settings with
    | ArgFunction => JNull
    | ArgValue v => v
    end in
  let settings := js_or (js_or settings (mappingSettings x)) (JObj ∅) in
  let body := JObj {[ type o := JObj (mapping o) ]} in
  let exists_ := IndicesExists (index o) in
  let put := IndicesPutMapping (index o) (type o) body in
  let create := IndicesCreate (index o) settings in
  match tape with
  | [] => ([exists_], Pending)
  | ReplyErr err :: _ => ([exists_], Rejected err)
  | ReplyOk found :: tape =>
      if js_truthy found
      then ([exists_; put], settle tape)
      else
        match tape with
        | [] => ([exists_; create], Pending)
        | ReplyErr err :: _ => ([exists_; create], Rejected err)
        | ReplyOk _ :: tape => ([exists_; create; put], settle tape)
        end
  end.

(** The options object a static function works with:
    a callback in its place, or a missing one, is [{}]. *)
Definition call_options (options : Arg) : JsVal :=
  let options :=
    match options with
    | ArgFunction => JObj ∅
    | ArgValue v => v
    end in
  js_or options (JObj ∅).

(** The delay [refresh] hands to [setTimeout]:
    [options.refreshDelay === false ? 0 : options.refreshDelay || esOptions.refreshDelay] *)
Definition refresh_delay (options : Arg) (x : Extras) : JsVal :=
  let options := call_options options in
  if is_false (js_get options "refreshDelay")
  then JNum 0
  else js_or (js_get options "refreshDelay") (refreshDelay x).

(** [refresh(options, callback)]: the call is settled by the timer that the
    callback of the refresh request starts. *)
Definition refresh (options : Arg) (o : EsOptions) (x : Extras)
    (tape : list Reply) : list StaticEffect * Settled Result :=
  match tape with
  | [] => ([IndicesRefresh (index o)], Pending)
  | _ :: _ =>
      ([IndicesRefresh (index o); SetTimeout (refresh_delay options x)],
       settle tape)
  end.

(** The parameters [count] and [search] build from the query:
    a string goes to [q], an object with a [query] entry is the body,
    any other object is wrapped as [{query}]. *)
Definition query_params (query : JsVal) (o : EsOptions) : Params :=
  let query := js_or query (JObj ∅) in
  match query with
  | JStr s =>
      {| p_index := index o; p_type := type o;
         p_q := Some s; p_body := None; p_source := None |}
  | _ =>
      {| p_index := index o; p_type := type o;
         p_q := None;
         p_body := Some (if js_truthy (js_get query "query")
                         then query
                         else JObj {[ "query" := query ]});
         p_source := None |}
  end.

(** [count(query, options, callback)]; [result.count] is read as [js_get]
    reads it, the backend's result being an object. *)
Definition count (query : JsVal) (options : Arg) (o : EsOptions) (x : Extras)
    (tape : list Reply) : list StaticEffect * Settled Result :=
  let options := call_options options in
  let countOnly := override (js_get options "countOnly") (countOnly x) in
  let params := query_params query o in
  ([ClientCount params],
   match tape with
   | [] => Pending
   | ReplyErr err :: _ => Rejected err
   | ReplyOk result :: _ =>
       Resolved (if js_truthy countOnly then js_get result "count" else result)
   end).

(** Answers that are not errors. *)
Definition is_ok (r : Reply) : bool :=
  match r with
  | ReplyOk _ => true
  | ReplyErr _ => false
  end.

(** ** Static functions: [search] *)

(** What the backend answers to a search: the total it reports and the
    [_id] of each hit, in rank order. *)
Record SearchResult : Type := mkSearchResult {
  hits_total : JsVal;
  hit_ids : list string
}.

Inductive SearchReply : Type :=
| SearchErr (err : EsError)
| SearchOk (result : SearchResult).

(** What [self.find] hands to its callback. *)
Inductive FindReply : Type :=
| FindErr (err : EsError)
| FindOk (users : list Doc).

(** What [search] resolves with. *)
Inductive Found : Type :=
| FoundResult (result : SearchResult)        (* the backend's result as it is *)
| FoundIds (ids : list string)               (* the ObjectIds of the hits *)
| FoundDocs (docs : list (option Doc))       (* the documents alone *)
| FoundHydrated (result : SearchResult) (docs : list (option Doc)).
                                             (* the result, with [hit.doc] of each hit *)

(** [users.forEach(user => { userByIds[user._id] = user; })] *)
Definition index_users (users : list Doc) : gmap string Doc :=
  foldl (fun userByIds user => <[_id user := user]> userByIds) ∅ users.

Section Search.

(** [mongoose.Types.ObjectId], as the property key it makes of a hit's id:
    [None] for an id it throws on (one that is not 12 bytes or 24
    hexadecimal characters). *)
Context (ObjectId : string -> option string).

(** [search(query, options, callback)]; [backend] is the answer to the
    search request and [store] the answer to [self.find], each [None] when
    it never comes. The ids are converted before [idsOnly] is looked at:
    when [ObjectId] throws, the exception leaves the callback of the search
    request, nothing more is asked and the call is never settled. *)
Definition search (query : JsVal) (options : Arg) (o : EsOptions) (x : Extras)
    (backend : option SearchReply) (store : option FindReply)
    : list StaticEffect * Settled Found :=
  let options := call_options options in
  let hydrate := override (js_get options "hydrate") (hydrate x) in
  let idsOnly := override (js_get options "idsOnly") (idsOnly x) in
  let params := query_params query o in
  let params :=
    if js_truthy hydrate
    then {| p_index := p_index params; p_type := p_type params;
            p_q := p_q params; p_body := p_body params;
            p_source := Some false |}
    else params in
  match backend with
  | None => ([ClientSearch params], Pending)
  | Some (SearchErr err) => ([ClientSearch params], Rejected err)
  | Some (SearchOk result) =>
      if negb (js_truthy hydrate) && negb (js_truthy idsOnly)
      then ([ClientSearch params], Resolved (FoundResult result))
      else
        match mapM ObjectId (hit_ids result) with
        | None => ([ClientSearch params], Pending)
        | Some ids =>
            if js_truthy idsOnly
            then ([ClientSearch params], Resolved (FoundIds ids))
            else
              let select := js_or (js_get hydrate "select") JNull in
              let opts := js_or (js_get hydrate "options") JNull in
              let docsOnly := js_or (js_get hydrate "docsOnly") (JBool false) in
              if negb (js_truthy (hits_total result))
              then ([ClientSearch params],
                    Resolved (if js_truthy docsOnly
                              then FoundDocs []
                              else FoundResult result))
              else
                let asked := [ClientSearch params; ModelFind ids select opts] in
                match store with
                | None => (asked, Pending)
                | Some (FindErr err) => (asked, Rejected err)
                | Some (FindOk users) =>
                    let userByIds := index_users users in
                    if js_truthy docsOnly
                    then (asked,
                          Resolved (FoundDocs ((fun id => userByIds !! id) <$> ids)))
                    else (asked,
                          Resolved (FoundHydrated result
                                      ((fun id => userByIds !! id)
                                         <$> hit_ids result)))
                end
        end
  end.

End Search.

(** ** The arguments of [synchronize] *)

(** [synchronize(conditions, projection, options, callback)]: the first
    function among the three leading arguments is the callback, and what
    [model.find] receives is [(conditions || {}, projection, options)]. *)
Definition synchronize_args (conditions projection options : Arg)
    : JsVal * Arg * Arg :=
  let '(conditions, projection, options) :=
    match conditions, projection, options with
    | ArgFunction, _, _ => (ArgValue (JObj ∅), ArgValue JNull, ArgValue JNull)
    | _, ArgFunction, _ => (conditions, ArgValue JNull, ArgValue JNull)
    | _, _, ArgFunction => (conditions, projection, ArgValue JNull)
    | _, _, _ => (conditions, projection, options)
    end in
  (match conditions with
   | ArgValue v => js_or v (JObj ∅)
   | ArgFunction => JObj ∅
   end,
   projection, options).

(** ** [esOptions] *)

(** [options.bulker]: what the plugin's options held there, or a queue
    made by [new Bulker(client, bulk)]. Every construction makes a queue of
    its own; they are told apart by their number in the order in which
    the plugin constructed them. *)
Inductive BulkerSlot : Type :=
| BulkerGiven (v : JsVal)
| BulkerMade (serial : nat) (client bulk : JsVal).

(** The plugin's [options], a closure variable that [esOptions] fills in. *)
Record Options : Type := mkOptions {
  o_index : JsVal;
  o_type : JsVal;
  o_client : JsVal;
  o_bulk : JsVal;
  o_bulker : BulkerSlot;
  o_mapping : JsVal
}.

(** The model or document [esOptions] is called on. *)
Record Caller : Type := mkCaller {
  collection_name : JsVal;        (* [this.collection.name] *)
  modelName : JsVal;              (* [this.modelName] *)
  constructor_modelName : JsVal;  (* [this.constructor.modelName] *)
  schema : JsVal                  (* [this.schema] *)
}.

Section EsOptions.

(** [utils.lcFirst], [client] (lib/client.js) and [generateMapping]
    (lib/mapping.js) with the plugin's [version], none of which is among
    the sources: any such functions. *)
Context (lcFirst : JsVal -> JsVal).
Context (client_of : Options -> JsVal).
Context (generateMapping : JsVal -> JsVal -> JsVal).
Context (version : JsVal).

(** [esOptions()], given the options and the number of queues constructed
    so far: the options afterwards, the message of the error thrown or the
    clone returned, and the number of queues constructed by then. *)
Definition esOptions (this : Caller) (options : Options) (made : nat)
    : Options * (string + Options) * nat :=
  let options :=
    if negb (js_truthy (o_index options))
    then mkOptions (collection_name this) (o_type options) (o_client options)
           (o_bulk options) (o_bulker options) (o_mapping options)
    else options in
  let options :=
    if negb (js_truthy (o_type options))
    then mkOptions (o_index options)
           (lcFirst (js_or (modelName this) (constructor_modelName this)))
           (o_client options) (o_bulk options) (o_bulker options)
           (o_mapping options)
    else options in
  if negb (js_truthy (o_index options)) || negb (js_truthy (o_type options))
  then (options,
        inl (if js_truthy (o_index options)
             then "Missing model name to build ES type"
             else "Missing collection name to build ES index"),
        made)
  else
    let options :=
      if negb (js_truthy (o_client options))
      then mkOptions (o_index options) (o_type options) (client_of options)
             (o_bulk options) (o_bulker options) (o_mapping options)
      else options in
    let constructs := js_truthy (o_bulk options) in
    let options :=
      if constructs
      then mkOptions (o_index options) (o_type options) (o_client options)
             (o_bulk options)
             (BulkerMade made (o_client options) (o_bulk options))
             (o_mapping options)
      else options in
    let made := if constructs then S made else made in
    let options :=
      if negb (js_truthy (o_mapping options))
      then mkOptions (o_index options) (o_type options) (o_client options)
             (o_bulk options) (o_bulker options)
             (JObj {[ "properties" := generateMapping (schema this) version ]})
      else options in
    (options, inr options, made).

End EsOptions.

(** The fields [indexDoc] sets to null. *)
Definition nulled (update : UpdateArg) : list string :=
  match update with
  | UpdObject u => if truthy_unset u then unset_list u else []
  | _ => []
  end.

(** ** Counting what a session logged *)

(** How often [model.emit(event, _)] was called. *)
Fixpoint emitted (event : string) (l : list SyncEffect) : nat :=
  match l with
  | [] => 0
  | ModelEmit e _ :: rest =>
      (if bool_decide (e = event) then 1 else 0) + emitted event rest
  | _ :: rest => emitted event rest
  end.

(** How often the stream was paused. *)
Fixpoint pauses (l : list SyncEffect) : nat :=
  match l with
  | [] => 0
  | StreamPause :: rest => S (pauses rest)
  | _ :: rest => pauses rest
  end.

(** How the answer to the refresh settles the call, and what is logged. *)
Definition refresh_outcome (r : Reply) : Settled Result :=
  match r with
  | ReplyErr err => Rejected err
  | ReplyOk result => Resolved result
  end.

Definition refresh_effect (r : Reply) : SyncEffect :=
  match r with
  | ReplyErr err => SyncReject err
  | ReplyOk result => SyncResolve result
  end.

(** Once the handlers are removed: the refresh request is the last entry of
    the log until its answer settles the call, which is then the last. *)
Definition finalized_inv (idx : string) (s : Session) : Prop :=
  listening s = false ->
  (refreshing s = true /\ outcome s = None
   /\ exists pre, log s = pre ++ [RefreshRequest idx])
  \/ (refreshing s = false
      /\ exists pre r,
           outcome s = Some (refresh_outcome r)
           /\ log s = pre ++ [RefreshRequest idx; refresh_effect r]).

(** Decides the comparisons of event names left by [emitted]. *)
Ltac decide_events :=
  repeat match goal with
         | |- context [@bool_decide (@eq string ?a ?b) ?dec] =>
             let v := eval vm_compute in (@bool_decide (a = b) dec) in
             change (@bool_decide (a = b) dec) with v
         end.

(** ** Sample data *)

(** A serializer that keeps every field, and a diff that always finds the
    nickname undefined. *)
Definition sample_serialize : Doc -> Mapping -> JsObj := fun doc _ => fields doc.
Definition sample_undefineds : Doc -> Mapping -> list string :=
  fun _ _ => ["nickname"].

(** Records whose [hidden] field is set stay out of the index. *)
Definition not_hidden (doc : Doc) : bool :=
  match fields doc !! "hidden" with
  | Some _ => false
  | None => true
  end.

Definition users_plain : EsOptions :=
  {| index := "users"; type := "user"; mapping := ∅;
     filter := None; script := false |}.
Definition users_script : EsOptions :=
  {| index := "users"; type := "user"; mapping := ∅;
     filter := None; script := true |}.
Definition users_visible : EsOptions :=
  {| index := "users"; type := "user"; mapping := ∅;
     filter := Some not_hidden; script := false |}.

Definition alice : Doc :=
  {| _id := "a1"; isNew := false;
     fields := {[ "name" := JStr "Alice" ]}; _mexp := None |}.
Definition bob : Doc :=
  {| _id := "b2"; isNew := true;
     fields := {[ "name" := JStr "Bob" ]}; _mexp := None |}.
Definition carol : Doc :=
  {| _id := "c3"; isNew := true;
     fields := {[ "name" := JStr "Carol"; "hidden" := JBool true ]};
     _mexp := None |}.
Definition dave : Doc :=
  {| _id := "d4"; isNew := false;
     fields := {[ "name" := JStr "Dave"; "hidden" := JBool true ]};
     _mexp := None |}.

Definition not_found : EsError := {| status := Some 404%Z; message := "Not Found" |}.
Definition unavailable : EsError :=
  {| status := Some 503%Z; message := "Service Unavailable" |}.
Definition acknowledged : Result := JObj {[ "result" := JStr "ok" ]}.

Definition backend (l : list Reply) : World := {| replies := l; trace := [] |}.

Definition sample_op (n : string) : Operation :=
  {| op_index := "users"; op_type := "user"; op_id := n; op_payload := ∅ |}.

(** The further options of the sample model, and a variant that hydrates
    search hits to the documents alone. *)
Definition users_extras : Extras :=
  {| mappingSettings := JObj {[ "number_of_shards" := JNum 1 ]};
     refreshDelay := JNum 1000;
     countOnly := JBool true;
     hydrate := JUndefined;
     idsOnly := JUndefined |}.
Definition users_hydrating : Extras :=
  {| mappingSettings := JUndefined;
     refreshDelay := JNum 0;
     countOnly := JBool false;
     hydrate := JObj {[ "docsOnly" := JBool true ]};
     idsOnly := JUndefined |}.

(** Two records under ids that make ObjectIds. *)
Definition erin : Doc :=
  {| _id := "5f1d7f3e2c4a4b0012ab34cd"; isNew := false;
     fields := {[ "name" := JStr "Erin" ]}; _mexp := None |}.
Definition frank : Doc :=
  {| _id := "5f1d7f3e2c4a4b0012ab34ce"; isNew := false;
     fields := {[ "name" := JStr "Frank" ]}; _mexp := None |}.

(** Three hits, the last of a document the store no longer has, and a
    result with a hit whose id makes no ObjectId. *)
Definition three_hits : SearchResult :=
  {| hits_total := JNum 3;
     hit_ids := ["5f1d7f3e2c4a4b0012ab34ce"; "5f1d7f3e2c4a4b0012ab34cd";
                 "5f1d7f3e2c4a4b0012ab34cf"] |}.
Definition stray_hit : SearchResult :=
  {| hits_total := JNum 2; hit_ids := ["5f1d7f3e2c4a4b0012ab34cd"; "a1"] |}.

(** A stand-in for [ObjectId]: it takes 24 hexadecimal characters, here
    in lower case, and prints as them. *)
Definition is_hex (c : Ascii.ascii) : bool :=
  let n := Ascii.nat_of_ascii c in
  ((48 <=? n) && (n <=? 57)) || ((97 <=? n) && (n <=? 102)).
Definition sample_ObjectId (id : string) : option string :=
  if (String.length id =? 24) && forallb is_hex (list_ascii_of_string id)
  then Some id
  else None.

(** Stand-ins for the functions [esOptions] calls. *)
Definition sample_lcFirst (v : JsVal) : JsVal :=
  match v with
  | JStr (String c rest) =>
      JStr (String (if (Ascii.nat_of_ascii c <? 65) || (90 <? Ascii.nat_of_ascii c)
                    then c
                    else Ascii.ascii_of_nat (Ascii.nat_of_ascii c + 32)) rest)
  | _ => v
  end.
Definition sample_client : Options -> JsVal :=
  fun _ => JObj {[ "host" := JStr "localhost:9200" ]}.
Definition sample_generateMapping : JsVal -> JsVal -> JsVal :=
  fun schema _ => schema.

Definition no_options : Options :=
  {| o_index := JUndefined; o_type := JUndefined; o_client := JUndefined;
     o_bulk := JUndefined; o_bulker := BulkerGiven JUndefined;
     o_mapping := JUndefined |}.
Definition bulk_options : Options :=
  {| o_index := JUndefined; o_type := JUndefined; o_client := JUndefined;
     o_bulk := JObj {[ "size" := JNum 100 ]}; o_bulker := BulkerGiven JUndefined;
     o_mapping := JUndefined |}.
Definition user_model : Caller :=
  {| collection_name := JStr "users"; modelName := JStr "User";
     constructor_modelName := JUndefined; schema := JObj ∅ |}.
Definition post_model : Caller :=
  {| collection_name := JStr "posts"; modelName := JStr "Post";
     constructor_modelName := JUndefined; schema := JObj ∅ |}.
Definition unnamed_model : Caller :=
  {| collection_name := JStr "users"; modelName := JUndefined;
     constructor_modelName := JUndefined; schema := JObj ∅ |}.

(** ** Document Sync Protocol *)

Section Pipeline.

(** [utils.serialize] and [utils.getUndefineds] live in lib/utils.js, which
    is not part of the sources at hand: the protocol is verified for any
    pair of such functions. *)
Context (serialize : Doc -> Mapping -> JsObj).
Context (getUndefineds : Doc -> Mapping -> list string).

(** The request built by [_indexDoc]:
    [client[update ? 'update' : 'index']({index, type, id, body: update ? {doc: body} : body})] *)
Definition index_request (id : string) (body : JsObj) (o : EsOptions)
    (update : UpdateArg) : Request :=
  {| rq_method := if truthy_update update then MUpdate else MIndex;
     rq_index := index o;
     rq_type := type o;
     rq_id := id;
     rq_body := Some (if truthy_update update
                      then JObj {[ "doc" := JObj body ]}
                      else JObj body) |}.

(** [_indexDoc(id, body, esOptions, resolve, reject, update)]. The retry
    passes no [update] argument, which is what makes the recursion stop. *)
Equations? _indexDoc (id : string) (body : JsObj) (o : EsOptions)
    (update : UpdateArg) (w : World) : Settled Result * World
    by wf (Nat.b2n (truthy_update update)) lt :=
  _indexDoc id body o update w
    with client (index_request id body o update) w => {
    | (Rejected err, w') with inspect (truthy_update update && is_404 err) => {
        | exist _ true _ := _indexDoc id body o UpdUndefined w';
        | exist _ false _ := (Rejected err, w') };
    | (Resolved result, w') := (Resolved result, w');
    | (Pending, w') := (Pending, w') }.
Proof.
  apply andb_prop in e as [-> _]. simpl. lia.
Qed.

(** [indexDoc(update, callback)], bound as [doc.esIndex] *)
Definition indexDoc (self : Doc) (o : EsOptions) (update : UpdateArg) : Async Result :=
  let body := serialize self (mapping o) in
  let body :=
    match update with
    | UpdObject u =>
        if truthy_unset u then assign_nulls body (unset_list u) else body
    | _ => body
    end in
  _indexDoc (_id self) body o update.

(** The body built by [unsetFields]. *)
Definition unset_body (o : EsOptions) (names : list string) : JsObj :=
  if script o
  then {[ "script" := JStr (String.concat ";" (removal <$> names)) ]}
  else {[ "doc" := JObj (assign_nulls ∅ names) ]}.

(** [if (typeof fields === 'string') { fields = [fields]; }] *)
Definition field_list (names : FieldsArg) : list string :=
  match names with
  | FieldsString s => [s]
  | FieldsArray l => l
  end.

(** The request built by [unsetFields]. *)
Definition unset_request (self : Doc) (o : EsOptions) (names : list string) : Request :=
  {| rq_method := MUpdate;
     rq_index := index o;
     rq_type := type o;
     rq_id := _id self;
     rq_body := Some (JObj (unset_body o names)) |}.

(** [unsetFields(fields, callback)], bound as [doc.esUnset] *)
Definition unsetFields (self : Doc) (o : EsOptions) (names : FieldsArg) : Async Result :=
  client (unset_request self o (field_list names)).

(** The request built by [removeDoc]. *)
Definition delete_request (self : Doc) (o : EsOptions) : Request :=
  {| rq_method := MDelete;
     rq_index := index o;
     rq_type := type o;
     rq_id := _id self;
     rq_body := None |}.

(** [removeDoc(callback)], bound as [doc.esRemove] *)
Definition removeDoc (self : Doc) (o : EsOptions) : Async Result :=
  fun w =>
    match client (delete_request self o) w with
    | (Rejected err, w') => reject err w'
    | (Resolved _, w') => resolve JUndefined w'
    | (Pending, w') => (Pending, w')
    end.

(** ** Lifecycle hooks *)

(** [preSave(next)]; the diff runs on the document that already carries
    [_mexp.wasNew]. *)
Definition preSave (this : Doc) (o : EsOptions) : Doc :=
  let mexp := {| wasNew := Some (isNew this); unset := None |} in
  let this := set_mexp mexp this in
  if negb (isNew this)
  then set_mexp {| wasNew := wasNew mexp;
                   unset := Some (getUndefineds this (mapping o)) |} this
  else this.

(** The fields [preSave] finds undefined on a record that is not new. *)
Definition undefineds_of (this : Doc) (o : EsOptions) : list string :=
  getUndefineds
    (set_mexp {| wasNew := Some (isNew this); unset := None |} this) (mapping o).

Definition truthy_flag (b : option bool) : bool := default false b.

(** [data.unset && data.unset.length] *)
Definition has_unset (data : Mexp) : bool :=
  match unset data with
  | Some l => negb (bool_decide (length l = 0))
  | None => false
  end.

Definition unset_of (data : Mexp) : UnsetArg :=
  match unset data with
  | Some l => UnsetArray l
  | None => UnsetUndefined
  end.

(** The node-style callback of [doc.esRemove((err, res) => ...)] in the
    hooks: both scopes are told the outcome. *)
Definition removed_callback (p : Async Result) : Async unit :=
  fun w =>
    match p w with
    | (Rejected err, w') =>
        (emit OnDoc "es-removed" (Some err) None ;;
         emit OnModel "es-removed" (Some err) None) w'
    | (Resolved res, w') =>
        (emit OnDoc "es-removed" None (Some res) ;;
         emit OnModel "es-removed" None (Some res)) w'
    | (Pending, w') => (Pending, w')
    end.

(** [postSave(doc)]; [None] is a [null] document. The document comes
    back with [_mexp] deleted. *)
Definition postSave (doc : option Doc) (o : EsOptions) (w : World)
    : option Doc * World :=
  match doc with
  | None => (None, w)
  | Some doc =>
      let data := default {| wasNew := None; unset := None |} (_mexp doc) in
      let doc := delete_mexp doc in
      if passes_filter o doc then
        let chain :=
          catch
            (res ← (res ← indexDoc doc o
                            (if truthy_flag (wasNew data)
                             then UpdBool false
                             else UpdObject (unset_of data));
                    if script o && has_unset data
                    then unsetFields doc o (FieldsArray (default [] (unset data)))
                    else mret res);
             emit OnDoc "es-indexed" None (Some res) ;;
             emit OnModel "es-indexed" None (Some res))
            (fun err =>
               emit OnDoc "es-indexed" (Some err) None ;;
               emit OnModel "es-indexed" (Some err) None) in
        (Some doc, snd (chain w))
      else
        let notify :=
          emit OnDoc "es-filtered" None None ;;
          emit OnModel "es-filtered" None None ;;
          if negb (truthy_flag (wasNew data))
          then removed_callback (removeDoc doc o)
          else mret tt in
        (Some doc, snd (notify w))
  end.

(** [postRemove(doc)] *)
Definition postRemove (doc : option Doc) (o : EsOptions) (w : World) : World :=
  match doc with
  | None => w
  | Some doc => snd (removed_callback (removeDoc doc o) w)
  end.

(** ** Stream Synchronizer: the handlers of one [synchronize] call *)

Section Synchronize.

Context (esOptions : EsOptions).

(** [finalize()]: both listeners are removed, then the refresh is requested. *)
Definition finalize (s : Session) : Session :=
  say (RefreshRequest (index esOptions))
      (set_refreshing true (set_listening false s)).

(** The callback of the refresh: [(err, result) => err ? reject(err) : resolve(result)] *)
Definition refresh_callback (r : Reply) (s : Session) : Session :=
  match r with
  | ReplyErr err => say (SyncReject err) (set_outcome (Some (Rejected err)) s)
  | ReplyOk result => say (SyncResolve result) (set_outcome (Some (Resolved result)) s)
  end.

(** [onError(err)] *)
Definition onError (err : EsError) (s : Session) : Session :=
  let s := say (ModelEmit "es-bulk-error" (PErr err)) s in
  if streamClosed s then finalize s else stream_resume s.

(** [onSent(len)] *)
Definition onSent (len : nat) (s : Session) : Session :=
  let s := say (ModelEmit "es-bulk-sent" (PLen len)) s in
  if streamClosed s then finalize s else stream_resume s.

(** The operation pushed for a document. *)
Definition index_op (doc : Doc) : Operation :=
  {| op_index := index esOptions;
     op_type := type esOptions;
     op_id := _id doc;
     op_payload := serialize doc (mapping esOptions) |}.

(** [stream.on('data', doc => ...)] *)
Definition onData (doc : Doc) (s : Session) : Session :=
  let s := stream_pause s in
  let '(sending, s) :=
    if passes_filter esOptions doc
    then
      let '(sending, s) := bulker_push (index_op doc) s in
      (sending, say (ModelEmit "es-bulk-data" (PDoc doc)) s)
    else (false, say (ModelEmit "es-bulk-filtered" (PDoc doc)) s) in
  if negb sending then stream_resume s else s.

(** [stream.on('close', () => ...)] *)
Definition onClose (s : Session) : Session :=
  let s := set_streamClosed true s in
  if Bulker.filled (bulker s) then bulker_flush s else finalize s.

(** What the collaborators may deliver to the session. *)
Inductive Event : Type :=
| StreamData (doc : Doc)             (* the cursor produced a record *)
| StreamClose                        (* the cursor is exhausted *)
| BulkReply (err : option EsError)   (* the backend answered the oldest bulk request *)
| RefreshReply (r : Reply).          (* the backend answered the refresh *)

(** The bulker's own callback of [client.bulk]: it emits 'error' or
    'sent', which reach the session's handlers while they are registered. *)
Definition bulk_callback (batch : list Operation) (err : option EsError)
    (s : Session) : Session :=
  if listening s then
    match err with
    | Some e => onError e s
    | None => onSent (length batch) s
    end
  else s.

(** One event, when the collaborators can deliver it: a paused or closed
    cursor produces no record, a cursor closes once, and the backend
    answers requests that were made. *)
Definition step (s : Session) (ev : Event) : option Session :=
  match ev with
  | StreamData doc =>
      if paused s || streamClosed s then None else Some (onData doc s)
  | StreamClose =>
      if streamClosed s then None else Some (onClose s)
  | BulkReply err =>
      match in_flight s with
      | [] => None
      | batch :: rest => Some (bulk_callback batch err (set_in_flight rest s))
      end
  | RefreshReply r =>
      if refreshing s then Some (refresh_callback r (set_refreshing false s)) else None
  end.

Fixpoint run (s : Session) (evs : list Event) : option Session :=
  match evs with
  | [] => Some s
  | ev :: rest =>
      match step s ev with
      | Some s' => run s' rest
      | None => None
      end
  end.

(** The session when [synchronize] has registered its handlers:
    [esOptions.bulker || new Bulker(esOptions.client)] is a fresh queue. *)
Definition start (threshold : nat) : Session :=
  {| bulker := Bulker.create threshold;
     paused := false;
     streamClosed := false;
     listening := true;
     in_flight := [];
     refreshing := false;
     outcome := None;
     log := [] |}.

Definition is_refresh (e : SyncEffect) : bool :=
  match e with
  | RefreshRequest _ => true
  | _ => false
  end.

(** How often the refresh was requested. *)
Definition refreshes (l : list SyncEffect) : nat :=
  length (List.filter is_refresh l).

(** The operations handed to [client.bulk] so far, in order. *)
Fixpoint requested (l : list SyncEffect) : list Operation :=
  match l with
  | [] => []
  | BulkRequest batch :: rest => batch ++ requested rest
  | _ :: rest => requested rest
  end.

(** The sizes of the batches handed to [client.bulk] so far. *)
Fixpoint batch_sizes (l : list SyncEffect) : list nat :=
  match l with
  | [] => []
  | BulkRequest batch :: rest => length batch :: batch_sizes rest
  | _ :: rest => batch_sizes rest
  end.

(** The records the cursor produced in a sequence of events. *)
Fixpoint stream_docs (evs : list Event) : list Doc :=
  match evs with
  | [] => []
  | StreamData doc :: rest => doc :: stream_docs rest
  | _ :: rest => stream_docs rest
  end.

(** What holds of a session between any two events of a run. *)
Record session_inv (s : Session) : Prop := mk_session_inv {
  inv_one_flush : length (in_flight s) <= 1;
  inv_flushed : in_flight s <> [] -> Bulker.buffer (bulker s) = [];
  inv_paused : streamClosed s = false -> (paused s = true <-> in_flight s <> []);
  inv_open : streamClosed s = false -> listening s = true;
  inv_closed : streamClosed s = true -> Bulker.buffer (bulker s) = [];
  inv_waiting : streamClosed s = true -> listening s = true -> in_flight s <> [];
  inv_listening :
    listening s = true ->
    refreshes (log s) = 0 /\ refreshing s = false /\ outcome s = None;
  inv_finalized : listening s = false -> refreshes (log s) = 1
}.

End Synchronize.

(** * Proof tools *)

(** Rewriting rules for what the log of a session counts and collects. *)
Create Rewrite HintDb session.

(** Both sides are worlds after the same effects. *)
Ltac told_eq :=
  unfold told, mret, mbind, Async_ret, Async_bind, and_then, resolve, emit,
    record_effect;
  cbn;
  rewrite ?app_nil_r, <- ?app_assoc;
  try reflexivity;
  match goal with |- ?w = _ => destruct w; reflexivity end.

(** Unfolds the stream and session primitives down to the record. *)
Ltac session_unfold :=
  unfold stream_resume, stream_pause, finalize, submit, say, set_paused,
    set_bulker, set_streamClosed, set_listening, set_in_flight,
    set_refreshing, set_outcome;
  cbn [bulker paused streamClosed listening in_flight refreshing outcome log].

(** Closes the clauses of [session_inv] on an explicit session. *)
Ltac inv_close :=
  constructor; cbn [bulker paused streamClosed listening in_flight refreshing
                    outcome log Bulker.buffer Bulker.size length app];
  autorewrite with session; cbn [refreshes List.filter is_refresh length];
  intros; repeat split; intros;
  try congruence; try lia; try discriminate; auto.

(** An element with another head is not in an explicit list. *)
Ltac not_in_list :=
  let H := fresh in
  intros H;
  repeat (apply elem_of_cons in H as [H|H]; [discriminate H|]);
  apply elem_of_nil in H; exact H.

(** * Properties of the Document Sync Protocol *)

(** The defining equation of [_indexDoc], in the shape of the source. *)
Lemma _indexDoc_eq id body o update w :
  _indexDoc id body o update w =
    match client (index_request id body o update) w with
    | (Rejected err, w') =>
        if truthy_update update && is_404 err
        then _indexDoc id body o UpdUndefined w'
        else (Rejected err, w')
    | r => r
    end.
Proof.
  simp _indexDoc.
  destruct (client (index_request id body o update) w) as [[res|err|] w'];
    simpl; try reflexivity.
  destruct (truthy_update update && is_404 err); reflexivity.
Qed.

Lemma client_eq rq w :
  client rq w =
    (settle (replies w),
     {| replies := tail (replies w); trace := trace w ++ [Call rq] |}).
Proof.
  unfold client. destruct (replies w) as [|[err|r] rest]; reflexivity.
Qed.

(** A call without the update flag is a single full index request. *)
Lemma _indexDoc_plain id body o update w :
  truthy_update update = false ->
  _indexDoc id body o update w = client (index_request id body o update) w.
Proof.
  intros Hu. rewrite _indexDoc_eq, Hu. simpl.
  destruct (client _ w) as [[res|err|] w']; reflexivity.
Qed.

(** Whatever the flag, the first thing [_indexDoc] does is its own request. *)
Lemma _indexDoc_first_request id body o update w :
  exists rest,
    trace (snd (_indexDoc id body o update w)) =
      trace w ++ Call (index_request id body o update) :: rest.
Proof.
  rewrite _indexDoc_eq, client_eq.
  destruct (settle (replies w)) as [res|err|]; cbn [snd trace].
  - exists []. reflexivity.
  - destruct (truthy_update update && is_404 err).
    + rewrite _indexDoc_plain by reflexivity. rewrite client_eq. cbn [snd trace].
      eexists. rewrite <- app_assoc. reflexivity.
    + exists []. reflexivity.
  - exists []. reflexivity.
Qed.

(** C3. With the update flag set, a not-found (404) error of the update
    request is answered by exactly one more request, a full index write of
    the same body; whatever that retry yields settles the call (an error,
    a second 404 included, rejects: there is no third request). With the
    flag unset a 404 rejects at once, after the single index request. *)
Theorem _indexDoc_404_retried_once id body o update err rest tr :
  is_404 err = true ->
  let w := {| replies := ReplyErr err :: rest; trace := tr |} in
  (truthy_update update = true ->
     _indexDoc id body o update w =
       (settle rest,
        {| replies := tail rest;
           trace := tr ++ [Call (index_request id body o update);
                           Call (index_request id body o UpdUndefined)] |})
     /\ rq_method (index_request id body o update) = MUpdate
     /\ rq_method (index_request id body o UpdUndefined) = MIndex
     /\ rq_body (index_request id body o UpdUndefined) = Some (JObj body))
  /\ (truthy_update update = false ->
     _indexDoc id body o update w =
       (Rejected err,
        {| replies := rest;
           trace := tr ++ [Call (index_request id body o update)] |})
     /\ rq_method (index_request id body o update) = MIndex).
Proof.
  intros H404 w. split; intros Hu.
  - split.
    + rewrite _indexDoc_eq. unfold w at 1. cbn [client replies trace].
      rewrite Hu, H404. cbn [andb].
      rewrite _indexDoc_plain by reflexivity.
      rewrite client_eq. cbn [replies trace].
      rewrite <- app_assoc. reflexivity.
    + unfold index_request. cbn [rq_method rq_body truthy_update].
      rewrite Hu. auto.
  - split.
    + rewrite _indexDoc_plain by assumption. reflexivity.
    + unfold index_request. cbn [rq_method]. rewrite Hu. reflexivity.
Qed.

(** The single request of [removeDoc] and how its answer settles the call. *)
Lemma removeDoc_eq self o w :
  removeDoc self o w =
    (match replies w with
     | [] => Pending
     | ReplyErr err :: _ => Rejected err
     | ReplyOk _ :: _ => Resolved JUndefined
     end,
     {| replies := tail (replies w);
        trace := trace w ++ [Call (delete_request self o)] |}).
Proof.
  unfold removeDoc. rewrite client_eq.
  destruct (replies w) as [|[err|r] rest]; reflexivity.
Qed.

(** C4, as the code has it. [removeDoc] sends one delete request; any
    error of the backend, a not-found (404) error included, is surfaced as
    a rejection carrying that error, and the call resolves (with no value)
    only when the backend reports no error. *)
Theorem removeDoc_outcome self o w :
  removeDoc self o w =
    (match replies w with
     | [] => Pending
     | ReplyErr err :: _ => Rejected err
     | ReplyOk _ :: _ => Resolved JUndefined
     end,
     {| replies := tail (replies w);
        trace := trace w ++ [Call (delete_request self o)] |}).
Proof.
  unfold removeDoc. rewrite client_eq.
  destruct (replies w) as [|[err|r] rest]; reflexivity.
Qed.

Lemma string_app_assoc (a b c : string) : (a +:+ b) +:+ c = a +:+ b +:+ c.
Proof.
  induction a as [|ch a IH]; [reflexivity|].
  change (String ch ((a +:+ b) +:+ c) = String ch (a +:+ b +:+ c)).
  now rewrite IH.
Qed.

Lemma string_app_empty_r (s : string) : s +:+ EmptyString = s.
Proof.
  induction s as [|ch s IH]; [reflexivity|].
  change (String ch (s +:+ EmptyString) = String ch s). now rewrite IH.
Qed.

(** Every joined piece occurs in the joined string. *)
Lemma concat_mentions (sep : string) (l : list string) (x : string) :
  x ∈ l -> exists pre post, String.concat sep l = pre +:+ x +:+ post.
Proof.
  induction l as [|y l IH]; intros Hin.
  - inversion Hin.
  - apply elem_of_cons in Hin as [->|Hin].
    + destruct l as [|z l].
      * exists EmptyString, EmptyString.
        change (y = y +:+ EmptyString). now rewrite string_app_empty_r.
      * exists EmptyString, (sep +:+ String.concat sep (z :: l)). reflexivity.
    + destruct (IH Hin) as (pre & post & E).
      destruct l as [|z l]; [inversion Hin|].
      exists (y +:+ sep +:+ pre), post.
      change (String.concat sep (y :: z :: l))
        with (y +:+ sep +:+ String.concat sep (z :: l)).
      rewrite E, !string_app_assoc. reflexivity.
Qed.

Lemma assign_nulls_lookup (names : list string) (obj : JsObj) (f : string) :
  assign_nulls obj names !! f =
    if decide (f ∈ names) then Some JNull else obj !! f.
Proof.
  unfold assign_nulls. revert obj.
  induction names as [|n names IH]; intros obj; cbn [foldl].
  - case_decide as H; [inversion H | reflexivity].
  - rewrite IH. destruct (decide (f ∈ names)) as [Hin|Hnin].
    + rewrite decide_True by (right; exact Hin). reflexivity.
    + destruct (decide (f = n)) as [->|Hne].
      * rewrite decide_True by left. apply lookup_insert_eq.
      * rewrite decide_False by (intros H; apply elem_of_cons in H as [?|?]; tauto).
        apply lookup_insert_ne. congruence.
Qed.

(** C8. [unsetFields] sends a single update request for the document.
    Under script mode its body is [{script: s}] where [s] is the
    expressions [ctx._source.remove("f")] of the listed fields [f], in
    order, joined by [;], so that the removal of every listed field occurs
    in it; under doc mode its body is [{doc: d}] where [d] maps exactly the
    listed field names to null. *)
Theorem unsetFields_encodings self o names w :
  let l := field_list names in
  let quote := String "034"%char EmptyString in
  let expression :=
    fun f : string => "ctx._source.remove(" +:+ quote +:+ f +:+ quote +:+ ")" in
  exists body : JsObj,
    unsetFields self o names w =
      (settle (replies w),
       {| replies := tail (replies w);
          trace := trace w
            ++ [Call {| rq_method := MUpdate; rq_index := index o;
                        rq_type := type o; rq_id := _id self;
                        rq_body := Some (JObj body) |}] |})
    /\ (script o = true ->
        exists src,
          body = {[ "script" := JStr src ]}
          /\ src = String.concat ";" (expression <$> l)
          /\ forall f, f ∈ l ->
               exists pre post, src = pre +:+ expression f +:+ post)
    /\ (script o = false ->
        exists d : JsObj,
          body = {[ "doc" := JObj d ]}
          /\ forall f, d !! f = if decide (f ∈ l) then Some JNull else None).
Proof.
  intros l quote expression. exists (unset_body o l).
  split; [apply client_eq|].
  unfold unset_body. split; intros Hs; rewrite Hs.
  - eexists. split; [reflexivity|]. split; [reflexivity|].
    intros f Hf. apply (concat_mentions ";" (expression <$> l)).
    apply list_elem_of_fmap. eauto.
  - eexists. split; [reflexivity|].
    intros f. rewrite assign_nulls_lookup, lookup_empty. reflexivity.
Qed.

(** * Properties of the save hooks *)

Lemma told_nil w : told [] w = w.
Proof. destruct w. unfold told. simpl. now rewrite app_nil_r. Qed.

(** [postSave] on a document that passes the filter: the index call, the
    unset call after it when it resolved and the script mode has fields to
    unset, and the notification of the last outcome. *)
Lemma postSave_passing doc o w :
  passes_filter o (delete_mexp doc) = true ->
  let data := default {| wasNew := None; unset := None |} (_mexp doc) in
  let update := if truthy_flag (wasNew data) then UpdBool false
                else UpdObject (unset_of data) in
  snd (postSave (Some doc) o w) =
    match indexDoc (delete_mexp doc) o update w with
    | (Resolved res, w1) =>
        if script o && has_unset data
        then let r2 := unsetFields (delete_mexp doc) o
                         (FieldsArray (default [] (unset data))) w1 in
             told (indexed_notification (fst r2)) (snd r2)
        else told (indexed_notification (Resolved res)) w1
    | (r1, w1) => told (indexed_notification r1) w1
    end.
Proof.
  intros Hp data update. unfold postSave. rewrite Hp.
  fold data. fold update. cbn [snd]. unfold catch, mbind, Async_bind, and_then.
  destruct (indexDoc (delete_mexp doc) o update w) as [[res|err|] w1].
  - destruct (script o && has_unset data).
    + destruct (unsetFields _ _ _ w1) as [[r2|e2|] w2]; told_eq.
    + told_eq.
  - told_eq.
  - told_eq.
Qed.

(** [postSave] on a document that the filter rejects. *)
Lemma postSave_rejecting doc o w :
  passes_filter o (delete_mexp doc) = false ->
  let data := default {| wasNew := None; unset := None |} (_mexp doc) in
  let w0 := told filtered_notification w in
  snd (postSave (Some doc) o w) =
    if truthy_flag (wasNew data) then w0
    else let r := removeDoc (delete_mexp doc) o w0 in
         told (removed_notification (fst r)) (snd r).
Proof.
  intros Hp data w0. unfold postSave. rewrite Hp.
  fold data. cbn [snd].
  assert (E : forall k : Async unit,
    (emit OnDoc "es-filtered" None None ;; emit OnModel "es-filtered" None None ;; k) w
    = k w0).
  { intros k. unfold w0, filtered_notification.
    unfold told, mbind, Async_bind, and_then, emit, record_effect.
    cbn [fst snd replies trace]. now rewrite <- app_assoc. }
  rewrite E. clear E. clearbody w0 data.
  destruct (truthy_flag (wasNew data)); cbn [negb]; [reflexivity|].
  unfold removed_callback. cbv beta zeta.
  destruct (removeDoc (delete_mexp doc) o w0) as [[res|err|] w1]; told_eq.
Qed.

(** What [preSave] leaves for [postSave]. *)
Lemma preSave_mexp this o :
  _mexp (preSave this o) =
    Some {| wasNew := Some (isNew this);
            unset := if isNew this then None
                     else Some (undefineds_of this o) |}.
Proof.
  unfold preSave, undefineds_of. cbn [set_mexp isNew].
  destruct (isNew this); reflexivity.
Qed.

(** C7, as the code has it. A record saved through the save hooks that
    passes the filter is fully indexed when pre-save captured it as new,
    and otherwise partially updated with the fields found undefined in
    pre-save set to null; when that index call has resolved, the script
    mode is on and the list is not empty, one unset-fields request follows
    (none follows an index call that was rejected); the outcome of the last
    call, error or result, is notified as 'es-indexed' on the document and
    on its model. *)
Theorem postSave_indexes_saved_record this saved o w :
  _mexp saved = _mexp (preSave this o) ->
  passes_filter o (delete_mexp saved) = true ->
  let doc := delete_mexp saved in
  let names := undefineds_of this o in
  let body := serialize doc (mapping o) in
  let update := if isNew this then UpdBool false else UpdObject (UnsetArray names) in
  let first :=
    {| rq_method := if isNew this then MIndex else MUpdate;
       rq_index := index o; rq_type := type o; rq_id := _id saved;
       rq_body := Some (if isNew this then JObj body
                        else JObj {[ "doc" := JObj (assign_nulls body names) ]}) |} in
  let r1 := indexDoc doc o update w in
  (exists rest, trace (snd r1) = trace w ++ Call first :: rest)
  /\ snd (postSave (Some saved) o w) =
       match fst r1 with
       | Resolved res =>
           if script o && negb (isNew this) && negb (bool_decide (names = []))
           then let r2 := client (unset_request doc o names) (snd r1) in
                told (indexed_notification (fst r2)) (snd r2)
           else told (indexed_notification (Resolved res)) (snd r1)
       | r => told (indexed_notification r) (snd r1)
       end.
Proof.
  intros Hm Hp doc names body update first r1.
  rewrite preSave_mexp in Hm. split.
  - unfold r1, indexDoc, update, first. fold body.
    destruct (isNew this); cbn [truthy_unset unset_list].
    + apply _indexDoc_first_request.
    + apply _indexDoc_first_request.
  - rewrite postSave_passing by exact Hp. rewrite Hm. cbn [default from_option id wasNew unset truthy_flag].
    fold doc. unfold r1, update.
    destruct (isNew this); cbn [unset_of unset has_unset default from_option id negb andb].
    + rewrite andb_false_r.
      destruct (indexDoc doc o (UpdBool false) w) as [[res|err|] w1]; reflexivity.
    + fold names.
      destruct (indexDoc doc o (UpdObject (UnsetArray names)) w) as [[res|err|] w1];
        try reflexivity.
      cbn [fst snd]. rewrite andb_true_r.
      replace (negb (bool_decide (length names = 0)))
        with (negb (bool_decide (names = []))).
      2:{ destruct names; reflexivity. }
      destruct (script o && _); reflexivity.
Qed.

(** C10, as the code has it. A document that reaches [postSave] without
    a pending mutation context is handled as not new. When it passes the
    filter, [indexDoc] is given an update object whose unset list is
    undefined, so its first request is a partial update of the serialized
    document; a full index of the same document follows exactly when that
    update is answered by a 404 error, and nothing else is requested. When
    the filter rejects it, the delete request for the document is issued
    after the 'es-filtered' notifications. *)
Theorem postSave_without_context doc o w :
  _mexp doc = None ->
  let body := serialize (delete_mexp doc) (mapping o) in
  let partial :=
    {| rq_method := MUpdate; rq_index := index o; rq_type := type o;
       rq_id := _id doc; rq_body := Some (JObj {[ "doc" := JObj body ]}) |} in
  let full :=
    {| rq_method := MIndex; rq_index := index o; rq_type := type o;
       rq_id := _id doc; rq_body := Some (JObj body) |} in
  let remove :=
    {| rq_method := MDelete; rq_index := index o; rq_type := type o;
       rq_id := _id doc; rq_body := None |} in
  (passes_filter o (delete_mexp doc) = true ->
     let r1 := indexDoc (delete_mexp doc) o (UpdObject UnsetUndefined) w in
     snd (postSave (Some doc) o w) = told (indexed_notification (fst r1)) (snd r1)
     /\ truthy_update (UpdObject UnsetUndefined) = true
     /\ trace (snd r1) =
          trace w
            ++ Call partial
            :: match replies w with
               | ReplyErr err :: _ => if is_404 err then [Call full] else []
               | _ => []
               end)
  /\ (passes_filter o (delete_mexp doc) = false ->
     let r := removeDoc (delete_mexp doc) o (told filtered_notification w) in
     trace (snd (postSave (Some doc) o w)) =
       trace w ++ filtered_notification
               ++ Call remove :: removed_notification (fst r)).
Proof.
  intros Hm body partial full remove. split; intros Hp.
  - intros r1. split; [|split; [reflexivity|]].
    + rewrite postSave_passing by exact Hp. rewrite Hm.
      cbn [default from_option id wasNew unset truthy_flag unset_of has_unset].
      rewrite andb_false_r. fold r1.
      destruct r1 as [[res|err|] w1]; reflexivity.
    + unfold r1, indexDoc. cbn [truthy_unset]. fold body.
      rewrite _indexDoc_eq, client_eq.
      destruct (replies w) as [|[err|res] rest]; cbn [settle tail]; try reflexivity.
      cbn [truthy_update andb]. destruct (is_404 err); [|reflexivity].
      rewrite _indexDoc_plain by reflexivity. rewrite client_eq.
      cbn [snd trace]. rewrite <- app_assoc. reflexivity.
  - intros r. rewrite postSave_rejecting by exact Hp. rewrite Hm.
    cbn [default from_option id wasNew truthy_flag]. fold r.
    unfold r. rewrite removeDoc_eq.
    cbn [fst snd told trace replies].
    rewrite <- !app_assoc. reflexivity.
Qed.

(** * Properties of the Bulk Queue *)

Lemma flush_filled (b : Bulker.t) :
  Bulker.buffer b <> [] ->
  Bulker.flush b =
    (Some (Bulker.buffer b), {| Bulker.size := Bulker.size b; Bulker.buffer := [] |}).
Proof. unfold Bulker.flush. destruct (Bulker.buffer b); [congruence | reflexivity]. Qed.

(** The two ways a push can go. *)
Lemma push_cases (op : Operation) (b : Bulker.t) :
  (Bulker.size b <= length (Bulker.buffer b) + 1
   /\ Bulker.push op b =
        (true, Some (Bulker.buffer b ++ [op]),
         {| Bulker.size := Bulker.size b; Bulker.buffer := [] |}))
  \/ (length (Bulker.buffer b) + 1 < Bulker.size b
      /\ Bulker.push op b =
           (false, None,
            {| Bulker.size := Bulker.size b;
               Bulker.buffer := Bulker.buffer b ++ [op] |})).
Proof.
  unfold Bulker.push. cbn [Bulker.buffer Bulker.size].
  rewrite length_app. cbn [length].
  destruct (Nat.leb_spec (Bulker.size b) (length (Bulker.buffer b) + 1)) as [H|H].
  - left. split; [exact H|].
    rewrite flush_filled by (cbn; destruct (Bulker.buffer b); discriminate).
    reflexivity.
  - right. split; [exact H | reflexivity].
Qed.

(** Pushing a sequence of operations cuts it into batches of the threshold. *)
Lemma push_all_batches (ops : list Operation) (b : Bulker.t) :
  0 < Bulker.size b ->
  length (Bulker.buffer b) < Bulker.size b ->
  let r := Bulker.push_all ops b in
  concat (fst r) ++ Bulker.buffer (snd r) = Bulker.buffer b ++ ops
  /\ Forall (fun batch => length batch = Bulker.size b) (fst r)
  /\ length (Bulker.buffer (snd r)) < Bulker.size b
  /\ Bulker.size (snd r) = Bulker.size b.
Proof.
  revert b. induction ops as [|op ops IH]; intros b Hpos Hlt; cbn zeta.
  - cbn. rewrite app_nil_r. auto.
  - cbn [Bulker.push_all].
    destruct (push_cases op b) as [[Hle E]|[Hle E]]; rewrite E.
    + specialize (IH {| Bulker.size := Bulker.size b; Bulker.buffer := [] |}).
      cbn [Bulker.size Bulker.buffer length] in IH.
      destruct (IH Hpos Hpos) as (Hc & Hf & Hl & Hs).
      destruct (Bulker.push_all ops _) as [more b'']. cbn [fst snd] in *.
      cbn [option_list concat app]. split; [|split; [|split]]; try assumption.
      * simpl. rewrite <- !app_assoc. simpl. rewrite Hc. reflexivity.
      * constructor; [|exact Hf]. rewrite length_app. cbn. lia.
    + specialize (IH {| Bulker.size := Bulker.size b;
                        Bulker.buffer := Bulker.buffer b ++ [op] |}).
      cbn [Bulker.size Bulker.buffer] in IH. rewrite length_app in IH. cbn [length] in IH.
      destruct (IH Hpos Hle) as (Hc & Hf & Hl & Hs).
      destruct (Bulker.push_all ops _) as [more b'']. cbn [fst snd] in *.
      simpl. split; [|split; [|split]]; try assumption.
      rewrite Hc, <- app_assoc. reflexivity.
Qed.

(** C9. With a positive threshold the queue holds fewer operations than
    the threshold after each push (so never more than the threshold, the
    pushed operation included, before an automatic flush); the automatic
    flushes cut the pushed sequence into batches of exactly the threshold,
    in push order, the rest staying in the queue; so a sequence that
    reaches the threshold once triggers exactly one flush, of its first
    threshold-worth of operations, and the remaining ones start the next
    batch. *)
Theorem push_flushes_at_threshold (threshold : nat) (ops : list Operation) :
  0 < threshold ->
  let r := Bulker.push_all ops (Bulker.create threshold) in
  (forall n,
     length (Bulker.buffer (snd (Bulker.push_all (take n ops) (Bulker.create threshold))))
       < threshold)
  /\ concat (fst r) ++ Bulker.buffer (snd r) = ops
  /\ Forall (fun batch => length batch = threshold) (fst r)
  /\ (threshold <= length ops < 2 * threshold ->
      fst r = [take threshold ops]
      /\ Bulker.buffer (snd r) = drop threshold ops).
Proof.
  intros Hpos r.
  assert (Hall : forall l,
    let r := Bulker.push_all l (Bulker.create threshold) in
    concat (fst r) ++ Bulker.buffer (snd r) = l
    /\ Forall (fun batch => length batch = threshold) (fst r)
    /\ length (Bulker.buffer (snd r)) < threshold).
  { intros l. destruct (push_all_batches l (Bulker.create threshold))
      as (Hc & Hf & Hl & _); cbn; auto. }
  split; [intros n; apply (Hall (take n ops))|].
  destruct (Hall ops) as (Hc & Hf & Hl). fold r in Hc, Hf, Hl.
  split; [exact Hc|]. split; [exact Hf|].
  intros [Hge Hlt].
  destruct (fst r) as [|b1 [|b2 more]] eqn:Er.
  - cbn in Hc. rewrite Hc in Hl. lia.
  - cbn in Hc. rewrite app_nil_r in Hc.
    apply Forall_cons in Hf as [H1 _].
    rewrite <- Hc, <- H1. rewrite take_app_length, drop_app_length. auto.
  - exfalso. apply Forall_cons in Hf as [H1 Hf]. apply Forall_cons in Hf as [H2 _].
    apply (f_equal length) in Hc. cbn in Hc. rewrite !length_app in Hc. lia.
Qed.

(** * Properties of the Stream Synchronizer *)

Lemma refreshes_app (l1 l2 : list SyncEffect) :
  refreshes (l1 ++ l2) = refreshes l1 + refreshes l2.
Proof. unfold refreshes. now rewrite List.filter_app, length_app. Qed.

Lemma requested_app (l1 l2 : list SyncEffect) :
  requested (l1 ++ l2) = requested l1 ++ requested l2.
Proof.
  induction l1 as [|e l1 IH]; [reflexivity|].
  destruct e; cbn; rewrite IH, ?app_assoc; reflexivity.
Qed.

#[local] Hint Rewrite refreshes_app requested_app : session.

(** The session after [onData], by the filter and by what the push did. *)
Lemma onData_filtered o doc s :
  passes_filter o doc = false ->
  onData o doc s =
    mkSession (bulker s) false (streamClosed s) (listening s) (in_flight s)
      (refreshing s) (outcome s)
      (log s ++ [StreamPause; ModelEmit "es-bulk-filtered" (PDoc doc); StreamResume]).
Proof.
  intros Hp. unfold onData. rewrite Hp. session_unfold.
  rewrite <- !app_assoc. reflexivity.
Qed.

Lemma onData_buffered o doc s b :
  passes_filter o doc = true ->
  Bulker.push (index_op o doc) (bulker s) = (false, None, b) ->
  onData o doc s =
    mkSession b false (streamClosed s) (listening s) (in_flight s)
      (refreshing s) (outcome s)
      (log s ++ [StreamPause; ModelEmit "es-bulk-data" (PDoc doc); StreamResume]).
Proof.
  intros Hp E. unfold onData, bulker_push. rewrite Hp. session_unfold.
  rewrite E. session_unfold. rewrite <- !app_assoc. reflexivity.
Qed.

Lemma onData_flushing o doc s batch b :
  passes_filter o doc = true ->
  Bulker.push (index_op o doc) (bulker s) = (true, Some batch, b) ->
  onData o doc s =
    mkSession b true (streamClosed s) (listening s) (in_flight s ++ [batch])
      (refreshing s) (outcome s)
      (log s ++ [StreamPause; BulkRequest batch; ModelEmit "es-bulk-data" (PDoc doc)]).
Proof.
  intros Hp E. unfold onData, bulker_push. rewrite Hp. session_unfold.
  rewrite E. session_unfold. rewrite <- !app_assoc. reflexivity.
Qed.

(** The session after [onClose], by whether the queue is filled. *)
Lemma onClose_filled o s :
  Bulker.buffer (bulker s) <> [] ->
  onClose o s =
    mkSession {| Bulker.size := Bulker.size (bulker s); Bulker.buffer := [] |}
      (paused s) true (listening s) (in_flight s ++ [Bulker.buffer (bulker s)])
      (refreshing s) (outcome s)
      (log s ++ [BulkRequest (Bulker.buffer (bulker s))]).
Proof.
  intros Hne. unfold onClose, bulker_flush. session_unfold.
  unfold Bulker.filled. rewrite flush_filled by exact Hne.
  destruct (Bulker.buffer (bulker s)) as [|x l] eqn:E; [congruence|].
  session_unfold. reflexivity.
Qed.

Lemma onClose_empty o s :
  Bulker.buffer (bulker s) = [] ->
  onClose o s =
    mkSession (bulker s) (paused s) true false (in_flight s) true (outcome s)
      (log s ++ [RefreshRequest (index o)]).
Proof.
  intros He. unfold onClose. session_unfold. unfold Bulker.filled. rewrite He.
  reflexivity.
Qed.

(** The bulker's notification reaching the handlers. *)
Lemma bulk_callback_listening o batch err s :
  listening s = true ->
  bulk_callback o batch err s =
    let note := match err with
                | Some e => ModelEmit "es-bulk-error" (PErr e)
                | None => ModelEmit "es-bulk-sent" (PLen (length batch))
                end in
    if streamClosed s
    then mkSession (bulker s) (paused s) true false (in_flight s) true (outcome s)
           (log s ++ [note; RefreshRequest (index o)])
    else mkSession (bulker s) false false true (in_flight s)
           (refreshing s) (outcome s) (log s ++ [note; StreamResume]).
Proof.
  intros Hl. unfold bulk_callback. rewrite Hl.
  destruct err as [e|]; unfold onError, onSent; session_unfold;
    destruct (streamClosed s) eqn:Ec; session_unfold;
    rewrite <- ?app_assoc, ?Hl; reflexivity.
Qed.

Lemma start_inv threshold : session_inv (start threshold).
Proof. inv_close. Qed.

Lemma in_flight_nil_or s :
  session_inv s -> in_flight s = [] \/ exists batch, in_flight s = [batch].
Proof.
  intros [H1 _ _ _ _ _ _ _].
  destruct (in_flight s) as [|b [|b' l]]; cbn in H1; eauto; lia.
Qed.

Lemma step_inv o s ev s' :
  session_inv s -> step o s ev = Some s' -> session_inv s'.
Proof.
  intros Hinv Hstep. pose proof (in_flight_nil_or s Hinv) as Hfl.
  destruct Hinv as [H1 H2 H3 H4 H5 H6 H7 H8].
  destruct ev as [doc| |err|r]; cbn [step] in Hstep.
  - (* a record *)
    destruct (paused s) eqn:Ep; [discriminate|].
    destruct (streamClosed s) eqn:Ec; [discriminate|].
    cbn in Hstep. injection Hstep as <-.
    assert (Hnf : in_flight s = []).
    { destruct Hfl as [?|[b Hb]]; [assumption|].
      assert (false = true) by (apply H3; [reflexivity | congruence]). discriminate. }
    pose proof (H4 eq_refl) as El.
    destruct (H7 El) as (R0 & R1 & R2).
    destruct (passes_filter o doc) eqn:Hp.
    + destruct (push_cases (index_op o doc) (bulker s)) as [[_ E]|[_ E]].
      * rewrite (onData_flushing _ _ _ _ _ Hp E). rewrite Hnf, Ec. inv_close.
      * rewrite (onData_buffered _ _ _ _ Hp E). rewrite Hnf, Ec. inv_close.
    + rewrite (onData_filtered _ _ _ Hp). rewrite Hnf, Ec. inv_close.
  - (* the cursor closes *)
    destruct (streamClosed s) eqn:Ec; [discriminate|].
    injection Hstep as <-.
    pose proof (H4 eq_refl) as El.
    destruct (H7 El) as (R0 & R1 & R2).
    destruct (Bulker.buffer (bulker s)) as [|x l] eqn:Eb.
    + rewrite (onClose_empty _ _ Eb). inv_close.
    + assert (Hnf : in_flight s = []).
      { destruct Hfl as [?|[b Hb]]; [assumption|].
        assert (x :: l = []) by (apply H2; congruence). discriminate. }
      rewrite onClose_filled by congruence. rewrite Hnf, Eb. inv_close.
  - (* a bulk request is answered *)
    destruct Hfl as [Hnf|[batch Hb]]; rewrite ?Hnf, ?Hb in Hstep; [discriminate|].
    injection Hstep as <-.
    destruct (listening s) eqn:El.
    + rewrite bulk_callback_listening by exact El. cbn zeta.
      destruct (H7 eq_refl) as (R0 & R1 & R2).
      unfold set_in_flight.
      cbn [bulker paused streamClosed listening in_flight refreshing outcome log].
      destruct (streamClosed s) eqn:Ec.
      * specialize (H5 eq_refl). destruct err; inv_close.
      * destruct err; inv_close.
    + unfold bulk_callback. cbn [listening set_in_flight]. rewrite El.
      assert (Ec : streamClosed s = true).
      { destruct (streamClosed s) eqn:Ec; [reflexivity|].
        specialize (H4 eq_refl). congruence. }
      specialize (H5 Ec). specialize (H8 eq_refl).
      unfold set_in_flight. rewrite Ec, El. inv_close.
  - (* the refresh is answered *)
    destruct (refreshing s) eqn:Er; [|discriminate].
    injection Hstep as <-.
    assert (El : listening s = false).
    { destruct (listening s) eqn:El; [|reflexivity].
      destruct (H7 eq_refl) as (_ & R1 & _). congruence. }
    specialize (H8 El).
    assert (Ec : streamClosed s = true).
    { destruct (streamClosed s) eqn:Ec; [reflexivity|].
        specialize (H4 eq_refl). congruence. }
    specialize (H5 Ec).
    destruct r as [e|res]; unfold refresh_callback, say, set_outcome, set_refreshing;
      cbn [bulker paused streamClosed listening in_flight refreshing outcome log];
      rewrite Ec, El; inv_close.
Qed.

(** Every session reached from the start satisfies the invariant. *)
Lemma run_inv o s evs s' :
  session_inv s -> run o s evs = Some s' -> session_inv s'.
Proof.
  revert s. induction evs as [|ev evs IH]; intros s Hinv Hrun; cbn in Hrun.
  - injection Hrun as <-. exact Hinv.
  - destruct (step o s ev) as [s1|] eqn:E; [|discriminate].
    eapply IH; [|exact Hrun]. eapply step_inv; eauto.
Qed.
(** Each step hands to the queue exactly the operation of a record that
    passes the filter, and nothing else. *)
Lemma step_pushed o s ev s' :
  step o s ev = Some s' ->
  requested (log s') ++ Bulker.buffer (bulker s') =
    (requested (log s) ++ Bulker.buffer (bulker s))
      ++ (index_op o <$> List.filter (passes_filter o) (stream_docs [ev])).
Proof.
  intros Hstep. destruct ev as [doc| |err|r]; cbn [step] in Hstep.
  - destruct (paused s || streamClosed s); [discriminate|]. injection Hstep as <-.
    cbn [stream_docs List.filter]. destruct (passes_filter o doc) eqn:Hp.
    + destruct (push_cases (index_op o doc) (bulker s)) as [[_ E]|[_ E]].
      * rewrite (onData_flushing _ _ _ _ _ Hp E).
        cbn [log bulker Bulker.buffer]. rewrite requested_app. cbn.
        rewrite !app_nil_r, <- !app_assoc. reflexivity.
      * rewrite (onData_buffered _ _ _ _ Hp E).
        cbn [log bulker Bulker.buffer]. rewrite requested_app. cbn.
        rewrite !app_nil_r, <- !app_assoc. reflexivity.
    + rewrite (onData_filtered _ _ _ Hp).
      cbn [log bulker]. rewrite requested_app. cbn. rewrite !app_nil_r. reflexivity.
  - destruct (streamClosed s); [discriminate|]. injection Hstep as <-.
    cbn [stream_docs List.filter fmap list_fmap]. rewrite app_nil_r.
    destruct (Bulker.buffer (bulker s)) as [|x l] eqn:Eb.
    + rewrite (onClose_empty _ _ Eb). cbn [log bulker]. rewrite requested_app, Eb.
      cbn. rewrite !app_nil_r. reflexivity.
    + rewrite onClose_filled by congruence. cbn [log bulker Bulker.buffer].
      rewrite requested_app, Eb. cbn. rewrite !app_nil_r. reflexivity.
  - destruct (in_flight s) as [|batch rest]; [discriminate|]. injection Hstep as <-.
    cbn [stream_docs List.filter fmap list_fmap]. rewrite app_nil_r.
    unfold bulk_callback. cbn [listening set_in_flight].
    destruct (listening s); [|reflexivity].
    destruct err as [e|]; unfold onError, onSent; session_unfold;
      destruct (streamClosed s); session_unfold;
      rewrite !requested_app; cbn; rewrite !app_nil_r; reflexivity.
  - destruct (refreshing s); [|discriminate]. injection Hstep as <-.
    cbn [stream_docs List.filter fmap list_fmap]. rewrite app_nil_r.
    destruct r; unfold refresh_callback; session_unfold;
      rewrite requested_app; cbn; rewrite !app_nil_r; reflexivity.
Qed.

Lemma stream_docs_cons ev evs :
  stream_docs (ev :: evs) = stream_docs [ev] ++ stream_docs evs.
Proof. destruct ev; reflexivity. Qed.

Lemma run_pushed o s evs s' :
  run o s evs = Some s' ->
  requested (log s') ++ Bulker.buffer (bulker s') =
    (requested (log s) ++ Bulker.buffer (bulker s))
      ++ (index_op o <$> List.filter (passes_filter o) (stream_docs evs)).
Proof.
  revert s. induction evs as [|ev evs IH]; intros s Hrun; cbn [run] in Hrun.
  - injection Hrun as <-. cbn. now rewrite app_nil_r.
  - destruct (step o s ev) as [s1|] eqn:E; [|discriminate].
    rewrite (IH _ Hrun), (step_pushed _ _ _ _ E), (stream_docs_cons ev evs).
    rewrite List.filter_app, fmap_app, <- !app_assoc. reflexivity.
Qed.

(** While a bulk request is unanswered the cursor delivers no record. *)
Lemma no_record_while_flushing o s doc :
  session_inv s -> in_flight s <> [] -> step o s (StreamData doc) = None.
Proof.
  intros Hinv Hne. cbn [step].
  destruct (streamClosed s) eqn:Ec; [now rewrite orb_true_r|].
  rewrite (proj2 (inv_paused s Hinv Ec) Hne). reflexivity.
Qed.

(** C1. When the cursor produces a record, the handler pauses the stream
    first and resumes it itself exactly when the record was filtered out or
    enqueued without a flush. When the push triggered a flush, the stream
    stays paused with that one request in flight: the cursor delivers no
    record, and the bulker's notification of the answer, 'sent' or
    'error', is what resumes it. At any later point of the run at most one
    bulk request is unanswered, and no record is delivered meanwhile. *)
Theorem stream_paused_per_record o threshold evs s doc s' :
  run o (start threshold) evs = Some s ->
  step o s (StreamData doc) = Some s' ->
  let sending :=
    passes_filter o doc && fst (fst (Bulker.push (index_op o doc) (bulker s))) in
  (exists mid,
     log s' = log s ++ StreamPause :: mid ++ (if sending then [] else [StreamResume])
     /\ (StreamPause ∉ mid) /\ (StreamResume ∉ mid))
  /\ paused s' = sending
  /\ (sending = false -> in_flight s' = [])
  /\ (sending = true ->
      (exists batch, in_flight s' = [batch])
      /\ (forall d, step o s' (StreamData d) = None)
      /\ (forall err, exists s'' note,
            step o s' (BulkReply err) = Some s''
            /\ log s'' = log s' ++ [note; StreamResume]
            /\ paused s'' = false /\ in_flight s'' = []))
  /\ (forall later s2,
      run o s' later = Some s2 ->
      length (in_flight s2) <= 1
      /\ (in_flight s2 <> [] -> forall d, step o s2 (StreamData d) = None)).
Proof using serialize.
  intros Hrun Hstep sending.
  pose proof (run_inv _ _ _ _ (start_inv threshold) Hrun) as Hinv.
  pose proof (step_inv _ _ _ _ Hinv Hstep) as Hinv'.
  pose proof (in_flight_nil_or s Hinv) as Hfl.
  destruct Hinv as [H1 H2 H3 H4 H5 H6 H7 H8].
  cbn [step] in Hstep.
  destruct (paused s) eqn:Ep; [discriminate|].
  destruct (streamClosed s) eqn:Ec; [discriminate|].
  cbn in Hstep. injection Hstep as <-.
  assert (Hnf : in_flight s = []).
  { destruct Hfl as [?|[b Hb]]; [assumption|].
    assert (false = true) by (apply H3; [reflexivity | congruence]). discriminate. }
  pose proof (H4 eq_refl) as El.
  assert (Hlater : forall later s2,
    run o (onData o doc s) later = Some s2 ->
    length (in_flight s2) <= 1
    /\ (in_flight s2 <> [] -> forall d, step o s2 (StreamData d) = None)).
  { intros later s2 Hrun2.
    pose proof (run_inv _ _ _ _ Hinv' Hrun2) as Hinv2.
    split; [apply Hinv2|].
    intros Hne d. apply no_record_while_flushing; assumption. }
  unfold sending. destruct (passes_filter o doc) eqn:Hp; cbn [andb].
  - destruct (push_cases (index_op o doc) (bulker s)) as [[_ E]|[_ E]]; rewrite E.
    + rewrite (onData_flushing _ _ _ _ _ Hp E) in *. rewrite Hnf in *.
      cbn [fst log paused in_flight app] in *.
      split; [|split; [reflexivity|split; [discriminate|split; [intros _|exact Hlater]]]].
      * eexists [_; _]. split; [reflexivity|]. split; not_in_list.
      * split; [eauto|]. split; [reflexivity|].
        intros err. cbn [step in_flight].
        rewrite bulk_callback_listening by exact El.
        cbn [streamClosed set_in_flight]. rewrite Ec. cbn zeta.
        eexists _, _. split; [reflexivity|]. cbn. auto.
    + rewrite (onData_buffered _ _ _ _ Hp E) in *. rewrite Hnf in *.
      cbn [fst log paused in_flight app] in *.
      split; [|split; [reflexivity|split; [reflexivity|split; [discriminate|exact Hlater]]]].
      eexists [_]. split; [reflexivity|]. split; not_in_list.
  - rewrite (onData_filtered _ _ _ Hp) in *. rewrite Hnf in *.
    cbn [log paused in_flight app] in *.
    split; [|split; [reflexivity|split; [reflexivity|split; [discriminate|exact Hlater]]]].
    eexists [_]. split; [reflexivity|]. split; not_in_list.
Qed.

(** C2. In a run of [synchronize] the refresh is requested at most once,
    and never before the cursor has closed and the queue is empty; once
    the cursor has closed and no bulk request is left unanswered it has
    been requested exactly once. A step that requests it leaves the cursor
    closed and the queue empty. When the queue is still filled at close,
    the close handler flushes it and requests no refresh: the refresh
    follows the answer to that flush; when it is empty, the close handler
    requests the refresh itself. *)
Theorem refresh_exactly_once o threshold evs s :
  run o (start threshold) evs = Some s ->
  refreshes (log s) <= 1
  /\ (refreshes (log s) = 1 ->
      streamClosed s = true /\ Bulker.buffer (bulker s) = [])
  /\ (streamClosed s = true -> in_flight s = [] -> refreshes (log s) = 1)
  /\ (forall ev s',
        step o s ev = Some s' ->
        refreshes (log s') = S (refreshes (log s)) ->
        refreshes (log s) = 0
        /\ streamClosed s' = true /\ Bulker.buffer (bulker s') = [])
  /\ (streamClosed s = false -> Bulker.buffer (bulker s) <> [] ->
      exists s',
        step o s StreamClose = Some s'
        /\ log s' = log s ++ [BulkRequest (Bulker.buffer (bulker s))]
        /\ in_flight s' = [Bulker.buffer (bulker s)]
        /\ forall err, exists s'' note,
             step o s' (BulkReply err) = Some s''
             /\ log s'' = log s' ++ [note; RefreshRequest (index o)])
  /\ (streamClosed s = false -> Bulker.buffer (bulker s) = [] ->
      exists s',
        step o s StreamClose = Some s'
        /\ log s' = log s ++ [RefreshRequest (index o)]).
Proof.
  intros Hrun.
  pose proof (run_inv _ _ _ _ (start_inv threshold) Hrun) as Hinv.
  assert (Hcount : forall t, session_inv t ->
    refreshes (log t) <= 1
    /\ (refreshes (log t) = 1 ->
        streamClosed t = true /\ Bulker.buffer (bulker t) = [])).
  { intros t [H1 H2 H3 H4 H5 H6 H7 H8].
    destruct (listening t) eqn:El.
    - destruct (H7 eq_refl) as (R0 & _). rewrite R0. split; [lia | discriminate].
    - rewrite (H8 eq_refl). split; [lia|]. intros _.
      assert (Ec : streamClosed t = true).
      { destruct (streamClosed t) eqn:Ec; [reflexivity|].
        specialize (H4 eq_refl). congruence. }
      auto. }
  destruct (Hcount s Hinv) as [Hle Hone].
  split; [exact Hle|]. split; [exact Hone|].
  pose proof (in_flight_nil_or s Hinv) as Hfl.
  pose proof Hinv as [H1 H2 H3 H4 H5 H6 H7 H8].
  split; [|split; [|split]].
  - intros Ec Hnf. destruct (listening s) eqn:El.
    + exfalso. apply (H6 Ec eq_refl). exact Hnf.
    + apply H8. reflexivity.
  - intros ev s' Hstep Hmore.
    destruct (Hcount s' (step_inv _ _ _ _ Hinv Hstep)) as [Hle' Hone'].
    assert (refreshes (log s') = 1) as E1 by lia.
    split; [lia | exact (Hone' E1)].
  - intros Ec Hne. cbn [step]. rewrite Ec.
    assert (Hnf : in_flight s = []).
    { destruct Hfl as [?|[b Hb]]; [assumption|].
      exfalso. apply Hne, H2. congruence. }
    eexists. split; [reflexivity|].
    rewrite onClose_filled by exact Hne. cbn [log in_flight]. rewrite Hnf.
    split; [reflexivity|]. split; [reflexivity|].
    intros err. cbn [step in_flight app].
    rewrite bulk_callback_listening by (cbn; auto).
    cbn [streamClosed set_in_flight]. cbn zeta.
    eexists _, _. split; reflexivity.
  - intros Ec He. cbn [step]. rewrite Ec.
    eexists. split; [reflexivity|]. rewrite (onClose_empty _ _ He). reflexivity.
Qed.

(** C6. While the cursor has not closed, the 'error' notification of a
    bulk request is emitted as 'es-bulk-error' and the cursor is resumed:
    the call stays unsettled, the handlers stay registered, no refresh is
    requested, and the cursor can deliver the next record. An error
    answered to the refresh rejects the call with that error. *)
Theorem bulk_error_keeps_streaming o threshold evs s err :
  run o (start threshold) evs = Some s ->
  (streamClosed s = false -> in_flight s <> [] ->
     exists s',
       step o s (BulkReply (Some err)) = Some s'
       /\ log s' = log s ++ [ModelEmit "es-bulk-error" (PErr err); StreamResume]
       /\ paused s' = false /\ streamClosed s' = false /\ listening s' = true
       /\ outcome s' = None /\ refreshing s' = false /\ bulker s' = bulker s
       /\ forall doc, step o s' (StreamData doc) = Some (onData o doc s'))
  /\ (refreshing s = true ->
     exists s',
       step o s (RefreshReply (ReplyErr err)) = Some s'
       /\ outcome s' = Some (Rejected err)
       /\ log s' = log s ++ [SyncReject err]).
Proof.
  intros Hrun.
  pose proof (run_inv _ _ _ _ (start_inv threshold) Hrun) as Hinv.
  pose proof (in_flight_nil_or s Hinv) as Hfl.
  destruct Hinv as [H1 H2 H3 H4 H5 H6 H7 H8].
  split.
  - intros Ec Hne. destruct Hfl as [?|[batch Hb]]; [congruence|].
    pose proof (H4 Ec) as El. destruct (H7 El) as (R0 & R1 & R2).
    cbn [step]. rewrite Hb. eexists. split; [reflexivity|].
    rewrite bulk_callback_listening by exact El.
    cbn [streamClosed set_in_flight]. rewrite Ec. cbn zeta.
    cbn [log paused streamClosed listening outcome refreshing bulker step orb].
    repeat split; auto.
  - intros Er. cbn [step]. rewrite Er. eexists. split; [reflexivity|].
    split; reflexivity.
Qed.

(** C5. A record that the filter rejects is never handed to the bulk
    queue: in a run of [synchronize] the operations flushed and queued are
    exactly those of the records that pass the filter, in order, and the
    handler of a rejected record only pauses, emits 'es-bulk-filtered' and
    resumes. In the post-save hook a rejected record that pre-save captured
    as new gets the 'es-filtered' notifications and no request at all; a
    delete request is issued only for one that was not new. *)
Theorem filtered_record_not_indexed o threshold evs s doc this saved w :
  (run o (start threshold) evs = Some s ->
     requested (log s) ++ Bulker.buffer (bulker s) =
       index_op o <$> List.filter (passes_filter o) (stream_docs evs))
  /\ (passes_filter o doc = false ->
      bulker (onData o doc s) = bulker s
      /\ in_flight (onData o doc s) = in_flight s
      /\ log (onData o doc s) =
           log s ++ [StreamPause; ModelEmit "es-bulk-filtered" (PDoc doc);
                     StreamResume])
  /\ (_mexp saved = _mexp (preSave this o) ->
      passes_filter o (delete_mexp saved) = false ->
      let after := trace (snd (postSave (Some saved) o w)) in
      (isNew this = true -> after = trace w ++ filtered_notification)
      /\ (isNew this = false ->
          after =
            trace w ++ filtered_notification
              ++ Call (delete_request (delete_mexp saved) o)
              :: removed_notification
                   (fst (removeDoc (delete_mexp saved) o
                           (told filtered_notification w))))).
Proof.
  split; [|split].
  - intros Hrun. rewrite (run_pushed _ _ _ _ Hrun). reflexivity.
  - intros Hp. rewrite (onData_filtered _ _ _ Hp). auto.
  - intros Hm Hp after. unfold after. rewrite preSave_mexp in Hm.
    rewrite postSave_rejecting by exact Hp. rewrite Hm.
    cbn [default from_option id wasNew truthy_flag].
    split; intros Hn; rewrite Hn.
    + reflexivity.
    + rewrite removeDoc_eq. cbn [fst snd told trace replies].
      rewrite <- !app_assoc. reflexivity.
Qed.

(** * Further properties of the Document Sync Protocol *)

(** [_indexDoc] looks at its flag only through its truthiness. *)
Lemma _indexDoc_truthy_ext id body o u u' w :
  truthy_update u = truthy_update u' ->
  _indexDoc id body o u w = _indexDoc id body o u' w.
Proof.
  intros E. rewrite (_indexDoc_eq id body o u), (_indexDoc_eq id body o u').
  unfold index_request. rewrite E. reflexivity.
Qed.

(** X1. Whatever the flag and whatever the backend answers, [_indexDoc]
    sends its own request and at most one more, the full index retry, and
    that one only for an update answered by a 404; it takes from the
    answers exactly one per request sent. *)
Theorem _indexDoc_at_most_two_requests id body o update w :
  exists more,
    trace (snd (_indexDoc id body o update w)) =
      trace w ++ Call (index_request id body o update) :: more
    /\ replies (snd (_indexDoc id body o update w)) =
         drop (S (length more)) (replies w)
    /\ (more = []
        \/ (more = [Call (index_request id body o UpdUndefined)]
            /\ truthy_update update = true
            /\ exists err rest,
                 replies w = ReplyErr err :: rest /\ is_404 err = true)).
Proof.
  rewrite _indexDoc_eq, client_eq.
  destruct (replies w) as [|[err|res] rest] eqn:Er; cbn [settle tail].
  - exists []. cbn. auto.
  - destruct (truthy_update update && is_404 err) eqn:E.
    + apply andb_prop in E as [Hu H404].
      rewrite _indexDoc_plain by reflexivity. rewrite client_eq.
      cbn [snd trace replies]. eexists [_]. rewrite <- app_assoc.
      split; [reflexivity|]. split.
      * cbn. destruct rest; reflexivity.
      * right. split; [reflexivity|]. split; [exact Hu|]. eauto.
    + exists []. cbn. auto.
  - exists []. cbn. auto.
Qed.

(** X2. Unless the first answer is a 404 error, [_indexDoc] is its single
    request: a result resolves the call, any other error rejects it with
    that error, and no index request follows an update. *)
Theorem _indexDoc_single_request id body o update w :
  (forall err, settle (replies w) = Rejected err -> is_404 err = false) ->
  _indexDoc id body o update w =
    (settle (replies w),
     {| replies := tail (replies w);
        trace := trace w ++ [Call (index_request id body o update)] |}).
Proof.
  intros Hno. rewrite _indexDoc_eq, client_eq.
  destruct (settle (replies w)) as [res|err|] eqn:E; try reflexivity.
  rewrite (Hno err eq_refl), andb_false_r. reflexivity.
Qed.

(** X3. The first request of [indexDoc] is a partial update exactly when
    the update argument is truthy, a full index otherwise, and the
    document it carries has null for every field listed under [unset] and
    the serialized value for every other field. *)
Theorem indexDoc_body self o update w :
  exists rest d,
    trace (snd (indexDoc self o update w)) =
      trace w
        ++ Call {| rq_method := if truthy_update update then MUpdate else MIndex;
                   rq_index := index o; rq_type := type o; rq_id := _id self;
                   rq_body := Some (if truthy_update update
                                    then JObj {[ "doc" := JObj d ]}
                                    else JObj d) |}
        :: rest
    /\ forall f,
         d !! f = if decide (f ∈ nulled update) then Some JNull
                  else serialize self (mapping o) !! f.
Proof.
  unfold indexDoc.
  set (body := match update with
               | UpdObject u =>
                   if truthy_unset u
                   then assign_nulls (serialize self (mapping o)) (unset_list u)
                   else serialize self (mapping o)
               | _ => serialize self (mapping o)
               end).
  destruct (_indexDoc_first_request (_id self) body o update w) as [rest Hr].
  exists rest, body. split; [exact Hr|].
  intros f. unfold body, nulled.
  destruct update as [|b|u]; try (rewrite decide_False by inversion 1; reflexivity).
  destruct (truthy_unset u).
  - apply assign_nulls_lookup.
  - rewrite decide_False by inversion 1. reflexivity.
Qed.

(** [indexDoc] looks at its argument only through its truthiness and the
    fields it names. *)
Lemma indexDoc_ext self o u u' w :
  truthy_update u = truthy_update u' ->
  nulled u = nulled u' ->
  indexDoc self o u w = indexDoc self o u' w.
Proof.
  intros Ht Hn. unfold indexDoc.
  assert (Hb : forall v,
    match v with
    | UpdObject x =>
        if truthy_unset x
        then assign_nulls (serialize self (mapping o)) (unset_list x)
        else serialize self (mapping o)
    | _ => serialize self (mapping o)
    end = assign_nulls (serialize self (mapping o)) (nulled v)).
  { intros [|b|x]; try reflexivity. cbn [nulled]. destruct (truthy_unset x); reflexivity. }
  rewrite (Hb u), (Hb u'), Hn. apply _indexDoc_truthy_ext. exact Ht.
Qed.

(** X4. For [indexDoc] a single field name given as a string is the
    one-element list; an empty string, an empty list or no [unset] entry
    make the plain partial update that [true] makes; and no argument is
    the full index that [false] makes. *)
Theorem indexDoc_unset_forms self o w (s : string) :
  (s <> EmptyString ->
   indexDoc self o (UpdObject (UnsetString s)) w
   = indexDoc self o (UpdObject (UnsetArray [s])) w)
  /\ indexDoc self o (UpdObject (UnsetString EmptyString)) w
     = indexDoc self o (UpdBool true) w
  /\ indexDoc self o (UpdObject (UnsetArray [])) w
     = indexDoc self o (UpdBool true) w
  /\ indexDoc self o (UpdObject UnsetUndefined) w
     = indexDoc self o (UpdBool true) w
  /\ indexDoc self o UpdUndefined w = indexDoc self o (UpdBool false) w.
Proof.
  repeat split; try (apply indexDoc_ext; reflexivity).
  intros Hs. apply indexDoc_ext; [reflexivity|].
  cbn [nulled truthy_unset unset_list].
  rewrite bool_decide_eq_false_2 by exact Hs. reflexivity.
Qed.

(** X5. In doc mode the body of [unsetFields] depends on the set of the
    listed fields only: order and repetitions do not matter. In script mode
    the script of two lists one after the other is their scripts joined. *)
Theorem unset_body_of_lists o (l l' : list string) :
  (script o = false -> (forall f, f ∈ l <-> f ∈ l') ->
   unset_body o l = unset_body o l')
  /\ (script o = true -> l <> [] -> l' <> [] ->
      unset_body o (l ++ l')
      = {[ "script" :=
             JStr (String.concat ";" (removal <$> l) +:+ ";"
                   +:+ String.concat ";" (removal <$> l')) ]}).
Proof.
  unfold unset_body. split.
  - intros -> Hset. do 2 f_equal. apply map_eq. intros f.
    rewrite !assign_nulls_lookup.
    destruct (decide (f ∈ l)) as [H|H], (decide (f ∈ l')) as [H'|H'];
      try reflexivity; exfalso; apply Hset in H || apply Hset in H'; tauto.
  - intros -> Hl Hl'. do 2 f_equal. rewrite fmap_app.
    assert (Hj : forall a b : list string, b <> [] ->
      String.concat ";" (a ++ b)
      = match a with
        | [] => String.concat ";" b
        | _ => String.concat ";" a +:+ ";" +:+ String.concat ";" b
        end).
    { induction a as [|x a IH]; intros b Hb; [reflexivity|].
      specialize (IH b Hb). destruct a as [|y a].
      - destruct b; [congruence | reflexivity].
      - change (String.concat ";" ((x :: y :: a) ++ b))
          with (x +:+ ";" +:+ String.concat ";" ((y :: a) ++ b)).
        rewrite IH.
        change (String.concat ";" (x :: y :: a))
          with (x +:+ ";" +:+ String.concat ";" (y :: a)).
        rewrite !string_app_assoc. reflexivity. }
    rewrite Hj by (destruct l'; [congruence | discriminate]).
    destruct l; [congruence | reflexivity].
Qed.

(** X6. [postRemove] sends exactly one request, the delete of the
    document by its id, whatever the filter says and whatever context the
    document carries, and then tells the outcome as 'es-removed' on the
    document and on its model, an error included; a null document leaves
    everything as it was. *)
Theorem postRemove_always_deletes doc o w :
  postRemove None o w = w
  /\ trace (postRemove (Some doc) o w) =
       trace w
         ++ Call {| rq_method := MDelete; rq_index := index o;
                    rq_type := type o; rq_id := _id doc; rq_body := None |}
         :: match replies w with
            | [] => []
            | ReplyErr err :: _ =>
                [Emit OnDoc "es-removed" (Some err) None;
                 Emit OnModel "es-removed" (Some err) None]
            | ReplyOk _ :: _ =>
                [Emit OnDoc "es-removed" None (Some JUndefined);
                 Emit OnModel "es-removed" None (Some JUndefined)]
            end
  /\ replies (postRemove (Some doc) o w) = tail (replies w).
Proof.
  split; [reflexivity|]. unfold postRemove, removed_callback.
  rewrite removeDoc_eq.
  destruct (replies w) as [|[err|r] rest];
    unfold mbind, Async_bind, and_then, emit, record_effect; cbn;
    rewrite <- ?app_assoc; split; reflexivity.
Qed.

(** * Further properties of the save hooks *)

Lemma calls_app (l1 l2 : list Effect) : calls (l1 ++ l2) = calls l1 ++ calls l2.
Proof.
  induction l1 as [|e l1 IH]; [reflexivity|].
  destruct e; cbn; rewrite IH; reflexivity.
Qed.

Lemma calls_requests (reqs : list Request) : calls (Call <$> reqs) = reqs.
Proof. induction reqs as [|r reqs IH]; [reflexivity|]. cbn. now rewrite IH. Qed.

Lemma calls_indexed r : calls (indexed_notification r) = [].
Proof. destruct r; reflexivity. Qed.

(** Every outcome of [_indexDoc]: what it asked, what it left of the
    answers, and that it stays pending only for want of an answer. *)
Lemma _indexDoc_shape id body o update w :
  exists reqs,
    trace (snd (_indexDoc id body o update w)) = trace w ++ (Call <$> reqs)
    /\ replies (snd (_indexDoc id body o update w)) = drop (length reqs) (replies w)
    /\ 1 <= length reqs <= 2
    /\ Forall (fun rq => rq_method rq <> MDelete) reqs
    /\ (length reqs <= length (replies w) ->
        fst (_indexDoc id body o update w) <> Pending).
Proof.
  rewrite _indexDoc_eq, client_eq.
  assert (Hm : forall u, rq_method (index_request id body o u) <> MDelete).
  { intros u. unfold index_request. cbn. destruct (truthy_update u); discriminate. }
  destruct (replies w) as [|[err|res] rest] eqn:Er; cbn [settle tail].
  - exists [index_request id body o update]. cbn. repeat split; auto; lia.
  - destruct (truthy_update update && is_404 err) eqn:E.
    + rewrite _indexDoc_plain by reflexivity. rewrite client_eq.
      cbn [fst snd trace replies].
      exists [index_request id body o update; index_request id body o UpdUndefined].
      rewrite <- app_assoc. cbn [length fmap list_fmap app].
      split; [reflexivity|]. split; [destruct rest; reflexivity|].
      split; [lia|]. split; [repeat constructor; apply Hm|].
      intros Hlen. destruct rest as [|[e2|r2] rest]; cbn in *; try discriminate; lia.
    + exists [index_request id body o update]. cbn.
      repeat split; auto; try lia; discriminate.
  - exists [index_request id body o update]. cbn.
    repeat split; auto; try lia; discriminate.
Qed.

(** What [postSave] does for a document that passes the filter: between
    one and three requests, none of them a delete, then the 'es-indexed'
    notifications of the outcome. *)
Lemma postSave_passing_shape doc o w :
  passes_filter o (delete_mexp doc) = true ->
  exists reqs r,
    trace (snd (postSave (Some doc) o w)) =
      trace w ++ (Call <$> reqs) ++ indexed_notification r
    /\ 1 <= length reqs <= 3
    /\ Forall (fun rq => rq_method rq <> MDelete) reqs
    /\ (length reqs <= length (replies w) -> r <> Pending).
Proof.
  intros Hp. rewrite (postSave_passing doc o w Hp). cbv zeta.
  set (data := default {| wasNew := None; unset := None |} (_mexp doc)).
  set (update := if truthy_flag (wasNew data) then UpdBool false
                 else UpdObject (unset_of data)).
  unfold indexDoc.
  match goal with |- context [_indexDoc ?i ?b o update w] =>
    destruct (_indexDoc_shape i b o update w) as (reqs & Ht & Hr & Hl & Hm & Hs);
    destruct (_indexDoc i b o update w) as [r1 w1]
  end.
  cbn [fst snd] in *.
  assert (Hplain : forall r,
    (length reqs <= length (replies w) -> r <> Pending) ->
    exists reqs0 r0,
      trace (told (indexed_notification r) w1) =
        trace w ++ (Call <$> reqs0) ++ indexed_notification r0
      /\ 1 <= length reqs0 <= 3
      /\ Forall (fun rq => rq_method rq <> MDelete) reqs0
      /\ (length reqs0 <= length (replies w) -> r0 <> Pending)).
  { intros r Hr0. exists reqs, r. cbn [told trace]. rewrite Ht, <- app_assoc.
    repeat split; auto; lia. }
  destruct r1 as [res|err|].
  - destruct (script o && has_unset data).
    + unfold unsetFields. rewrite client_eq. cbn [fst snd told trace replies].
      exists (reqs ++ [unset_request (delete_mexp doc) o
                         (field_list (FieldsArray (default [] (unset data))))]),
             (settle (replies w1)).
      rewrite Ht, fmap_app, <- !app_assoc, length_app. cbn [length fmap list_fmap app].
      split; [reflexivity|]. split; [lia|]. split.
      * apply Forall_app. split; [exact Hm|]. repeat constructor. discriminate.
      * intros Hlen. rewrite Hr.
        destruct (drop (length reqs) (replies w)) as [|[e|v] rest] eqn:Ed;
          cbn; try discriminate.
        apply (f_equal length) in Ed. rewrite length_drop in Ed. cbn in Ed. lia.
    + apply Hplain. discriminate.
  - apply Hplain. discriminate.
  - apply Hplain. intros Hlen Hpend. apply (Hs Hlen). reflexivity.
Qed.

(** X7. [postSave] consumes the context: the document comes back without
    it and a null document is left alone, so a second post-save that no
    pre-save precedes treats the record as not new, even one that was
    captured as new: it opens with a partial update when the filter
    passes, and issues the delete of the document by its id when the
    filter rejects. *)
Theorem postSave_consumes_context doc o w w2 :
  postSave None o w = (None, w)
  /\ fst (postSave (Some doc) o w) = Some (delete_mexp doc)
  /\ (passes_filter o (delete_mexp doc) = true ->
      exists rest,
        trace (snd (postSave (fst (postSave (Some doc) o w)) o w2)) =
          trace w2
            ++ Call {| rq_method := MUpdate; rq_index := index o;
                       rq_type := type o; rq_id := _id doc;
                       rq_body :=
                         Some (JObj {[ "doc" :=
                                 JObj (serialize (delete_mexp doc) (mapping o)) ]}) |}
            :: rest)
  /\ (passes_filter o (delete_mexp doc) = false ->
      exists rest,
        trace (snd (postSave (fst (postSave (Some doc) o w)) o w2)) =
          trace w2
            ++ [Emit OnDoc "es-filtered" None None;
                Emit OnModel "es-filtered" None None]
            ++ Call {| rq_method := MDelete; rq_index := index o;
                       rq_type := type o; rq_id := _id doc; rq_body := None |}
            :: rest).
Proof.
  split; [reflexivity|].
  assert (E : fst (postSave (Some doc) o w) = Some (delete_mexp doc)).
  { unfold postSave. destruct (passes_filter o (delete_mexp doc)); reflexivity. }
  split; [exact E|]. rewrite E. split; intros Hp.
  - rewrite postSave_passing by exact Hp. cbn [delete_mexp _mexp default from_option id
      wasNew unset truthy_flag unset_of has_unset].
    rewrite andb_false_r. unfold indexDoc. cbn [truthy_unset].
    match goal with |- context [_indexDoc ?i ?b o ?u w2] =>
      destruct (_indexDoc_first_request i b o u w2) as [rest Hr];
      destruct (_indexDoc i b o u w2) as [r1 w1]
    end.
    cbn [snd] in Hr.
    exists (rest ++ indexed_notification r1).
    destruct r1; cbn [told trace]; rewrite Hr, <- app_assoc; reflexivity.
  - rewrite postSave_rejecting by exact Hp. cbn [delete_mexp _mexp default from_option id
      wasNew truthy_flag]. rewrite removeDoc_eq. cbn [fst snd told trace replies].
    eexists. rewrite <- !app_assoc. reflexivity.
Qed.

(** X8. One run of [postSave] never both indexes and deletes: for a
    document that passes the filter it sends between one and three
    requests, none of them a delete; for one that the filter rejects it
    sends no request when the record was captured as new, and otherwise
    the delete of the document by its id and nothing else. *)
Theorem postSave_indexes_or_deletes doc o w :
  exists new,
    trace (snd (postSave (Some doc) o w)) = trace w ++ new
    /\ (passes_filter o (delete_mexp doc) = true ->
        1 <= length (calls new) <= 3
        /\ Forall (fun rq => rq_method rq <> MDelete) (calls new))
    /\ (passes_filter o (delete_mexp doc) = false ->
        calls new =
          if truthy_flag (wasNew (default {| wasNew := None; unset := None |}
                                    (_mexp doc)))
          then []
          else [ {| rq_method := MDelete; rq_index := index o;
                    rq_type := type o; rq_id := _id doc; rq_body := None |} ]).
Proof.
  destruct (passes_filter o (delete_mexp doc)) eqn:Hp.
  - destruct (postSave_passing_shape doc o w Hp) as (reqs & r & Ht & Hl & Hm & _).
    exists ((Call <$> reqs) ++ indexed_notification r).
    split; [exact Ht|]. split; [|discriminate]. intros _.
    rewrite calls_app, calls_requests, calls_indexed, app_nil_r. auto.
  - rewrite (postSave_rejecting doc o w Hp). cbv zeta.
    destruct (truthy_flag _).
    + exists filtered_notification. split; [reflexivity|].
      split; [discriminate | reflexivity].
    + rewrite removeDoc_eq. cbn [fst snd told trace replies].
      eexists. rewrite <- !app_assoc. split; [reflexivity|].
      split; [discriminate|]. intros _.
      destruct (replies w) as [|[e|v] rest]; reflexivity.
Qed.

(** X9. When the backend has an answer for each request, a save that
    passes the filter is reported exactly once: the effects of [postSave]
    are its requests followed by the 'es-indexed' notification of a settled
    outcome on the document and on the model, and nothing else. *)
Theorem postSave_reports_once doc o w :
  passes_filter o (delete_mexp doc) = true ->
  3 <= length (replies w) ->
  exists reqs err res,
    trace (snd (postSave (Some doc) o w)) =
      trace w ++ (Call <$> reqs)
        ++ [Emit OnDoc "es-indexed" err res; Emit OnModel "es-indexed" err res]
    /\ (is_Some err <-> res = None).
Proof.
  intros Hp Hlen.
  destruct (postSave_passing_shape doc o w Hp) as (reqs & r & Ht & Hl & _ & Hs).
  assert (Hr : r <> Pending) by (apply Hs; lia).
  destruct r as [v|e|]; [| |congruence].
  - exists reqs, None, (Some v). split; [exact Ht|].
    split; [intros [? ?]; discriminate | discriminate].
  - exists reqs, (Some e), None. split; [exact Ht|]. split; eauto.
Qed.

(** * Further properties of the Stream Synchronizer *)

Lemma emitted_app event (l1 l2 : list SyncEffect) :
  emitted event (l1 ++ l2) = emitted event l1 + emitted event l2.
Proof.
  induction l1 as [|e l1 IH]; [reflexivity|].
  destruct e; cbn; rewrite IH; lia.
Qed.

Lemma pauses_app (l1 l2 : list SyncEffect) :
  pauses (l1 ++ l2) = pauses l1 + pauses l2.
Proof.
  induction l1 as [|e l1 IH]; [reflexivity|].
  destruct e; cbn; rewrite IH; lia.
Qed.

#[local] Hint Rewrite emitted_app pauses_app : session.

(** What one event adds to the counts of a session's log. *)
Lemma step_counts o s ev s' :
  session_inv s -> step o s ev = Some s' ->
  emitted "es-bulk-data" (log s') =
    emitted "es-bulk-data" (log s)
      + length (List.filter (passes_filter o) (stream_docs [ev]))
  /\ emitted "es-bulk-filtered" (log s') =
       emitted "es-bulk-filtered" (log s)
         + length (List.filter (fun doc => negb (passes_filter o doc))
                     (stream_docs [ev]))
  /\ pauses (log s') = pauses (log s) + length (stream_docs [ev]).
Proof.
  intros Hinv Hstep. pose proof (in_flight_nil_or s Hinv) as Hfl.
  destruct Hinv as [H1 H2 H3 H4 H5 H6 H7 H8].
  destruct ev as [doc| |err|r]; cbn [step] in Hstep.
  - destruct (paused s) eqn:Ep; [discriminate|].
    destruct (streamClosed s) eqn:Ec; [discriminate|].
    cbn in Hstep. injection Hstep as <-.
    cbn [stream_docs List.filter].
    destruct (passes_filter o doc) eqn:Hp; cbn [negb length].
    + destruct (push_cases (index_op o doc) (bulker s)) as [[_ E]|[_ E]].
      * rewrite (onData_flushing _ _ _ _ _ Hp E). cbn [log paused].
        autorewrite with session. cbn. decide_events. cbn. lia.
      * rewrite (onData_buffered _ _ _ _ Hp E). cbn [log paused].
        autorewrite with session. cbn. decide_events. cbn. lia.
    + rewrite (onData_filtered _ _ _ Hp). cbn [log paused].
      autorewrite with session. cbn. decide_events. cbn. lia.
  - destruct (streamClosed s) eqn:Ec; [discriminate|]. injection Hstep as <-.
    cbn [stream_docs List.filter length].
    destruct (Bulker.buffer (bulker s)) as [|x l] eqn:Eb.
    + rewrite (onClose_empty _ _ Eb). cbn [log paused].
      autorewrite with session. cbn. decide_events. cbn. lia.
    + rewrite onClose_filled by congruence. cbn [log paused].
      autorewrite with session. cbn. decide_events. cbn. lia.
  - destruct Hfl as [Hnf|[batch Hb]]; rewrite ?Hnf, ?Hb in Hstep; [discriminate|].
    injection Hstep as <-. cbn [stream_docs List.filter length].
    destruct (listening s) eqn:El.
    + rewrite bulk_callback_listening by exact El. cbn zeta.
      unfold set_in_flight.
      cbn [bulker paused streamClosed listening in_flight refreshing outcome log].
      destruct (streamClosed s) eqn:Ec; cbn [log paused].
      * destruct err; autorewrite with session; cbn; decide_events; cbn; lia.
      * assert (Hpa : paused s = true) by (apply H3; [reflexivity | congruence]).
        rewrite ?Hpa. destruct err; autorewrite with session; cbn; decide_events; cbn; lia.
    + unfold bulk_callback. cbn [listening set_in_flight]. rewrite El.
      unfold set_in_flight. cbn [log paused]. lia.
  - destruct (refreshing s) eqn:Er; [|discriminate]. injection Hstep as <-.
    cbn [stream_docs List.filter length].
    destruct r; unfold refresh_callback; session_unfold;
      autorewrite with session; cbn; decide_events; cbn; lia.
Qed.

(** X10. In a run of [synchronize] every record the cursor produced is
    announced exactly once: 'es-bulk-data' as many times as records passed
    the filter, 'es-bulk-filtered' as many times as records were rejected. *)
Theorem every_record_announced_once o threshold evs s :
  run o (start threshold) evs = Some s ->
  emitted "es-bulk-data" (log s)
    = length (List.filter (passes_filter o) (stream_docs evs))
  /\ emitted "es-bulk-filtered" (log s)
     = length (List.filter (fun doc => negb (passes_filter o doc)) (stream_docs evs))
  /\ emitted "es-bulk-data" (log s) + emitted "es-bulk-filtered" (log s)
     = length (stream_docs evs).
Proof.
  intros Hrun.
  assert (Hgen : forall evs s0 s1,
    session_inv s0 -> run o s0 evs = Some s1 ->
    emitted "es-bulk-data" (log s1) =
      emitted "es-bulk-data" (log s0)
        + length (List.filter (passes_filter o) (stream_docs evs))
    /\ emitted "es-bulk-filtered" (log s1) =
         emitted "es-bulk-filtered" (log s0)
           + length (List.filter (fun doc => negb (passes_filter o doc))
                       (stream_docs evs))).
  { clear. induction evs as [|ev evs IH]; intros s0 s1 Hinv Hrun; cbn [run] in Hrun.
    - injection Hrun as <-. cbn. lia.
    - destruct (step o s0 ev) as [s'|] eqn:E; [|discriminate].
      destruct (step_counts _ _ _ _ Hinv E) as (A & B & _).
      destruct (IH _ _ (step_inv _ _ _ _ Hinv E) Hrun) as [A' B'].
      rewrite (stream_docs_cons ev evs), !List.filter_app, !length_app. lia. }
  destruct (Hgen _ _ _ (start_inv threshold) Hrun) as [A B].
  cbn in A, B. split; [exact A|]. split; [exact B|].
  rewrite A, B. clear. induction (stream_docs evs) as [|d l IH]; [reflexivity|].
  cbn. destruct (passes_filter o d); cbn; lia.
Qed.

(** X11. In a run of [synchronize] the cursor is paused exactly once for
    every record it produced, by the handler of that record, and by
    nothing else: the close of the cursor, the answers to the bulk
    requests and the answer to the refresh never pause it. *)
Theorem one_pause_per_record o threshold evs s :
  run o (start threshold) evs = Some s ->
  pauses (log s) = length (stream_docs evs)
  /\ forall ev s',
       step o s ev = Some s' ->
       pauses (log s') =
         match ev with
         | StreamData _ => S (pauses (log s))
         | _ => pauses (log s)
         end.
Proof.
  intros Hrun.
  assert (Hgen : forall evs s0 s1,
    session_inv s0 -> run o s0 evs = Some s1 ->
    pauses (log s1) = pauses (log s0) + length (stream_docs evs)).
  { clear. induction evs as [|ev evs IH]; intros s0 s1 Hinv Hrun; cbn [run] in Hrun.
    - injection Hrun as <-. cbn. lia.
    - destruct (step o s0 ev) as [s'|] eqn:E; [|discriminate].
      destruct (step_counts _ _ _ _ Hinv E) as (_ & _ & C).
      rewrite (IH _ _ (step_inv _ _ _ _ Hinv E) Hrun), C.
      rewrite (stream_docs_cons ev evs), !length_app. lia. }
  split.
  - rewrite (Hgen _ _ _ (start_inv threshold) Hrun). reflexivity.
  - intros ev s' Hstep.
    destruct (step_counts _ _ _ _ (run_inv _ _ _ _ (start_inv threshold) Hrun) Hstep)
      as (_ & _ & C).
    rewrite C. destruct ev; cbn; lia.
Qed.

Lemma step_finalized o s ev s' :
  session_inv s -> finalized_inv (index o) s ->
  step o s ev = Some s' -> finalized_inv (index o) s'.
Proof.
  intros Hinv Hfin Hstep. pose proof (in_flight_nil_or s Hinv) as Hfl.
  destruct Hinv as [H1 H2 H3 H4 H5 H6 H7 H8].
  unfold finalized_inv in *.
  destruct ev as [doc| |err|r]; cbn [step] in Hstep.
  - destruct (paused s) eqn:Ep; [discriminate|].
    destruct (streamClosed s) eqn:Ec; [discriminate|].
    cbn in Hstep. injection Hstep as <-.
    pose proof (H4 eq_refl) as El. intros Hl. exfalso.
    destruct (passes_filter o doc) eqn:Hp.
    + destruct (push_cases (index_op o doc) (bulker s)) as [[_ E]|[_ E]].
      * rewrite (onData_flushing _ _ _ _ _ Hp E) in Hl. cbn in Hl. congruence.
      * rewrite (onData_buffered _ _ _ _ Hp E) in Hl. cbn in Hl. congruence.
    + rewrite (onData_filtered _ _ _ Hp) in Hl. cbn in Hl. congruence.
  - destruct (streamClosed s) eqn:Ec; [discriminate|]. injection Hstep as <-.
    pose proof (H4 eq_refl) as El. destruct (H7 El) as (_ & R1 & R2).
    destruct (Bulker.buffer (bulker s)) as [|x l] eqn:Eb.
    + rewrite (onClose_empty _ _ Eb). cbn [listening refreshing outcome log].
      intros _. left. eauto.
    + rewrite onClose_filled by congruence. cbn [listening]. congruence.
  - destruct Hfl as [Hnf|[batch Hb]]; rewrite ?Hnf, ?Hb in Hstep; [discriminate|].
    injection Hstep as <-.
    destruct (listening s) eqn:El.
    + rewrite bulk_callback_listening by exact El. cbn zeta.
      destruct (H7 eq_refl) as (_ & R1 & R2).
      unfold set_in_flight.
      cbn [bulker paused streamClosed listening in_flight refreshing outcome log].
      destruct (streamClosed s) eqn:Ec; cbn [listening refreshing outcome log].
      * intros _. left. split; [reflexivity|]. split; [exact R2|].
        eexists (log s ++ [_]). rewrite <- app_assoc. reflexivity.
      * discriminate.
    + unfold bulk_callback. cbn [listening set_in_flight]. rewrite El.
      unfold set_in_flight. cbn [listening refreshing outcome log].
      intros _. apply Hfin. reflexivity.
  - destruct (refreshing s) eqn:Er; [|discriminate]. injection Hstep as <-.
    intros Hl.
    assert (El : listening s = false).
    { destruct r; exact Hl. }
    destruct (Hfin El) as [(_ & _ & pre & Hlog)|(Hr & _)]; [|discriminate].
    right. destruct r as [e|v]; unfold refresh_callback; session_unfold;
      (split; [reflexivity|]); exists pre;
      [exists (ReplyErr e) | exists (ReplyOk v)];
      rewrite Hlog, <- app_assoc; split; reflexivity.
Qed.

Lemma run_finalized o s evs s' :
  session_inv s -> finalized_inv (index o) s ->
  run o s evs = Some s' -> finalized_inv (index o) s'.
Proof.
  revert s. induction evs as [|ev evs IH]; intros s Hinv Hfin Hrun; cbn in Hrun.
  - injection Hrun as <-. exact Hfin.
  - destruct (step o s ev) as [s1|] eqn:E; [|discriminate].
    eapply IH; [| |exact Hrun].
    + eapply step_inv; eauto.
    + eapply step_finalized; eauto.
Qed.

Lemma start_finalized idx threshold : finalized_inv idx (start threshold).
Proof. unfold finalized_inv. cbn. discriminate. Qed.

(** X12. A run of [synchronize] settles only by the answer to the
    refresh, with its result or its error, and nothing comes after: when
    the call is settled the log ends with the one refresh request and the
    settling, and while the refresh is awaited the log ends with the
    refresh request, so no bulk request, pause, resume or notification
    follows it. *)
Theorem refresh_settles_last o threshold evs s :
  run o (start threshold) evs = Some s ->
  (forall res, outcome s = Some res ->
     exists pre r,
       res = refresh_outcome r
       /\ log s = pre ++ [RefreshRequest (index o); refresh_effect r]
       /\ refreshes pre = 0)
  /\ (refreshing s = true ->
      outcome s = None
      /\ exists pre, log s = pre ++ [RefreshRequest (index o)] /\ refreshes pre = 0).
Proof.
  intros Hrun.
  pose proof (run_inv _ _ _ _ (start_inv threshold) Hrun) as Hinv.
  pose proof (run_finalized _ _ _ _ (start_inv threshold)
                (start_finalized (index o) threshold) Hrun) as Hfin.
  destruct Hinv as [H1 H2 H3 H4 H5 H6 H7 H8]. unfold finalized_inv in Hfin.
  assert (Hcount : forall pre post,
    log s = pre ++ RefreshRequest (index o) :: post ->
    refreshes (log s) = 1 -> refreshes post = 0 -> refreshes pre = 0).
  { intros pre post E Hone Hpost. rewrite E in Hone.
    rewrite refreshes_app in Hone. cbn in Hone.
    change (refreshes post) with (length (List.filter is_refresh post)) in Hpost.
    unfold refreshes in *. cbn in Hone. lia. }
  split.
  - intros res Hres. destruct (listening s) eqn:El.
    + destruct (H7 eq_refl) as (_ & _ & R2). congruence.
    + destruct (Hfin eq_refl) as [(_ & R2 & _)|(_ & pre & r & Ho & Hlog)];
        [congruence|].
      exists pre, r. split; [congruence|]. split; [exact Hlog|].
      apply (Hcount pre [refresh_effect r]); [exact Hlog | apply H8; reflexivity|].
      destruct r; reflexivity.
  - intros Hr. destruct (listening s) eqn:El.
    + destruct (H7 eq_refl) as (_ & R1 & _). congruence.
    + destruct (Hfin eq_refl) as [(_ & R2 & pre & Hlog)|(R1 & _)]; [|congruence].
      split; [exact R2|]. exists pre. split; [exact Hlog|].
      apply (Hcount pre []); [exact Hlog | apply H8; reflexivity | reflexivity].
Qed.

(** Once the refresh is requested its answer settles the call. *)
Lemma refresh_answer_settles o s r :
  refreshing s = true ->
  exists s', step o s (RefreshReply r) = Some s'
             /\ outcome s' = Some (refresh_outcome r).
Proof.
  intros Hr. cbn [step]. rewrite Hr. eexists. split; [reflexivity|].
  destruct r; reflexivity.
Qed.

(** X13. A run of [synchronize] can always be completed: from any session
    it has reached and not yet settled, closing the cursor if it is open
    and answering the requests then outstanding (at most four events, no
    further record) settles the call with the answer to the refresh. *)
Theorem synchronize_can_complete o threshold evs s r :
  run o (start threshold) evs = Some s ->
  outcome s = None ->
  exists rest s',
    run o s rest = Some s'
    /\ outcome s' = Some (refresh_outcome r)
    /\ stream_docs rest = []
    /\ length rest <= 4.
Proof.
  intros Hrun Hout.
  pose proof (run_inv _ _ _ _ (start_inv threshold) Hrun) as Hinv.
  pose proof (run_finalized _ _ _ _ (start_inv threshold)
                (start_finalized (index o) threshold) Hrun) as Hfin.
  pose proof (in_flight_nil_or s Hinv) as Hfl.
  destruct Hinv as [H1 H2 H3 H4 H5 H6 H7 H8]. unfold finalized_inv in Hfin.
  (* after the handlers are removed only the answer to the refresh is awaited *)
  assert (Hlast : forall t, refreshing t = true ->
    exists s', run o t [RefreshReply r] = Some s'
               /\ outcome s' = Some (refresh_outcome r)).
  { intros t Ht. destruct (refresh_answer_settles o t r Ht) as (s' & E & Ho).
    exists s'. cbn [run]. rewrite E. auto. }
  destruct (listening s) eqn:El.
  - destruct (streamClosed s) eqn:Ec.
    + (* closed, the final flush unanswered *)
      destruct Hfl as [Hnf|[batch Hb]]; [exfalso; apply (H6 eq_refl eq_refl Hnf)|].
      set (t := bulk_callback o batch None (set_in_flight [] s)).
      assert (Ht : refreshing t = true).
      { unfold t. rewrite bulk_callback_listening by exact El.
        cbn [streamClosed set_in_flight]. rewrite Ec. reflexivity. }
      destruct (Hlast t Ht) as (s' & E & Ho).
      exists [BulkReply None; RefreshReply r], s'.
      split; [|split; [exact Ho|split; [reflexivity | cbn; lia]]].
      cbn [run step]. rewrite Hb. exact E.
    + (* open: answer the flush in flight, if any, then close *)
      assert (Hclose : forall u,
        streamClosed u = false -> listening u = true -> in_flight u = [] ->
        exists rest s',
          run o u (StreamClose :: rest) = Some s'
          /\ outcome s' = Some (refresh_outcome r)
          /\ stream_docs rest = [] /\ length rest <= 2).
      { intros u Hc Hl Hf. cbn [run step]. rewrite Hc.
        destruct (Bulker.buffer (bulker u)) as [|x l] eqn:Eb.
        - destruct (Hlast (onClose o u)) as (s' & E & Ho).
          { rewrite (onClose_empty _ _ Eb). reflexivity. }
          exists [RefreshReply r], s'. repeat split; auto.
        - set (b := onClose o u).
          assert (Hb : in_flight b = [x :: l] /\ listening b = true
                       /\ streamClosed b = true).
          { unfold b. rewrite onClose_filled by congruence.
            cbn [in_flight listening streamClosed]. rewrite Hf, Eb, Hl. auto. }
          destruct Hb as (Hb1 & Hb2 & Hb3).
          set (t := bulk_callback o (x :: l) None (set_in_flight [] b)).
          assert (Ht : refreshing t = true).
          { unfold t. rewrite bulk_callback_listening by exact Hb2.
            cbn [streamClosed set_in_flight]. rewrite Hb3. reflexivity. }
          destruct (Hlast t Ht) as (s' & E & Ho).
          exists [BulkReply None; RefreshReply r], s'.
          split; [|split; [exact Ho|split; [reflexivity | cbn; lia]]].
          cbn [run step]. rewrite Hb1. exact E. }
      destruct Hfl as [Hnf|[batch Hb]].
      * destruct (Hclose s Ec El Hnf) as (rest & s' & E & Ho & Hd & Hn).
        exists (StreamClose :: rest), s'. repeat split; auto; cbn; lia.
      * set (u := bulk_callback o batch None (set_in_flight [] s)).
        assert (Hu : streamClosed u = false /\ listening u = true
                     /\ in_flight u = []).
        { unfold u. rewrite bulk_callback_listening by exact El.
          cbn [streamClosed set_in_flight]. rewrite Ec. cbn. auto. }
        destruct Hu as (Hu1 & Hu2 & Hu3).
        destruct (Hclose u Hu1 Hu2 Hu3) as (rest & s' & E & Ho & Hd & Hn).
        exists (BulkReply None :: StreamClose :: rest), s'.
        split; [|split; [exact Ho|split; [exact Hd | cbn; lia]]].
        cbn [run step] in *. rewrite Hb. exact E.
  - destruct (Hfin eq_refl) as [(Hr & _)|(_ & pre & r0 & Ho & _)]; [|congruence].
    destruct (Hlast s Hr) as (s' & E & Ho).
    exists [RefreshReply r], s'. repeat split; auto; cbn; lia.
Qed.

End Pipeline.

(** * Properties of the static functions *)

(** X14. [createMapping] first asks whether the index exists; it creates
    the index only when that answer is falsy; it makes no request after an
    answer that is an error; the call is settled by the answer to the last
    request it made, so it resolves only with the answer of [putMapping]. *)
Theorem createMapping_requests settings o x tape :
  let asked := fst (createMapping settings o x tape) in
  let put := IndicesPutMapping (index o) (type o)
               (JObj {[ type o := JObj (mapping o) ]}) in
  asked !! 0 = Some (IndicesExists (index o))
  /\ ((exists body, IndicesCreate (index o) body ∈ asked)
      <-> exists found rest,
            tape = ReplyOk found :: rest /\ js_truthy found = false)
  /\ forallb is_ok (take (length asked - 1) tape) = true
  /\ snd (createMapping settings o x tape)
     = settle (drop (length asked - 1) tape)
  /\ (forall v, snd (createMapping settings o x tape) = Resolved v ->
      last asked = Some put).
Proof.
  cbv zeta. unfold createMapping.
  destruct tape as [|[err|found] tape].
  - cbn. repeat split; try discriminate.
    + intros [body H]. apply list_elem_of_singleton in H. discriminate.
    + intros (? & ? & ? & _). discriminate.
  - cbn. repeat split; try discriminate.
    + intros [body H]. apply list_elem_of_singleton in H. discriminate.
    + intros (? & ? & ? & _). discriminate.
  - destruct (js_truthy found) eqn:Hf.
    + cbn. repeat split; auto.
      * intros [body H].
        repeat (apply elem_of_cons in H as [H|H]; [discriminate|]).
        inversion H.
      * intros (f & r & E & Hf'). congruence.
    + destruct tape as [|[err|created] tape]; cbn.
      * repeat split; try discriminate; eauto.
        intros _. eexists. right. left.
      * repeat split; try discriminate; eauto.
        intros _. eexists. right. left.
      * repeat split; eauto.
        intros _. eexists. right. left.
Qed.

(** X15. The settings [createMapping] creates a missing index with are the
    ones given, when an object is given; otherwise the configured
    [mappingSettings], when there are any; otherwise the empty object. A
    callback given in the place of the settings counts as no settings. *)
Theorem createMapping_settings settings o x found created rest :
  js_truthy found = false ->
  let given := match settings with
               | ArgFunction => JNull
               | ArgValue v => v
               end in
  exists body,
    fst (createMapping settings o x (ReplyOk found :: ReplyOk created :: rest))
      = [IndicesExists (index o); IndicesCreate (index o) body;
         IndicesPutMapping (index o) (type o)
           (JObj {[ type o := JObj (mapping o) ]})]
    /\ (js_truthy given = true -> body = given)
    /\ (js_truthy given = false -> js_truthy (mappingSettings x) = true ->
        body = mappingSettings x)
    /\ (js_truthy given = false -> js_truthy (mappingSettings x) = false ->
        body = JObj ∅).
Proof.
  intros Hf given. unfold createMapping. fold given. rewrite Hf.
  eexists. split; [reflexivity|]. unfold js_or.
  split; [|split].
  - intros H. rewrite H. cbv iota. rewrite H. reflexivity.
  - intros H H'. rewrite H. cbv iota. rewrite H'. reflexivity.
  - intros H H'. rewrite H. cbv iota. rewrite H'. reflexivity.
Qed.

(** X16. [refresh] settles through a timer that its request's callback
    starts, an error as well as a result. The delay is 0 when the call
    says [refreshDelay: false], the call's own delay when that is truthy,
    and the configured delay in every other case: no options, a callback
    in their place, no entry, or a delay of 0. *)
Theorem refresh_waits options o x reply tape :
  let given := js_get (call_options options) "refreshDelay" in
  refresh options o x [] = ([IndicesRefresh (index o)], Pending)
  /\ (exists delay,
        refresh options o x (reply :: tape)
          = ([IndicesRefresh (index o); SetTimeout delay], settle (reply :: tape))
        /\ (given = JBool false -> delay = JNum 0)
        /\ (js_truthy given = true -> delay = given)
        /\ (given <> JBool false -> js_truthy given = false ->
            delay = refreshDelay x))
  /\ (options = ArgFunction \/ options = ArgValue JUndefined
      \/ options = ArgValue JNull -> given = JUndefined).
Proof.
  intros given. split; [reflexivity|]. split.
  - exists (refresh_delay options x). split; [reflexivity|].
    unfold refresh_delay. fold given. repeat split.
    + intros ->. reflexivity.
    + intros Ht. destruct given as [| |[|]| | |]; try discriminate;
        unfold js_or; cbn [is_false]; rewrite ?Ht; reflexivity.
    + intros Hnf Ht. destruct given as [| |[|]| | |]; try congruence;
        unfold js_or; cbn [is_false]; rewrite ?Ht; reflexivity.
  - intros [->|[->| ->]]; reflexivity.
Qed.

Lemma query_params_falsy query o :
  js_truthy query = false ->
  query_params query o =
    {| p_index := index o; p_type := type o; p_q := None;
       p_body := Some (JObj {[ "query" := JObj ∅ ]}); p_source := None |}.
Proof.
  intros Ht. unfold query_params, js_or. rewrite Ht.
  unfold js_get. rewrite lookup_empty. reflexivity.
Qed.

Lemma query_params_truthy query o :
  js_truthy query = true ->
  query_params query o =
    match query with
    | JStr s =>
        {| p_index := index o; p_type := type o; p_q := Some s;
           p_body := None; p_source := None |}
    | _ =>
        {| p_index := index o; p_type := type o; p_q := None;
           p_body := Some (if js_truthy (js_get query "query")
                           then query
                           else JObj {[ "query" := query ]});
           p_source := None |}
    end.
Proof. intros Ht. unfold query_params, js_or. rewrite Ht. reflexivity. Qed.

(** X17. The parameters [count] and [search] send: a non-empty string is
    the [q] parameter and there is no body; any other query gives a body
    and no [q]: an object with a truthy [query] entry as it is, any other
    object wrapped as [{query: ...}], and a missing, null or empty-string
    query as [{query: {}}]. *)
Theorem query_params_forms query o :
  let p := query_params query o in
  p_index p = index o /\ p_type p = type o /\ p_source p = None
  /\ (is_Some (p_q p) <-> p_body p = None)
  /\ (forall s, query = JStr s -> s <> EmptyString ->
      p_q p = Some s /\ p_body p = None)
  /\ (js_truthy query = false ->
      p_q p = None /\ p_body p = Some (JObj {[ "query" := JObj ∅ ]}))
  /\ (forall obj, query = JObj obj ->
      p_q p = None
      /\ p_body p = Some (if js_truthy (default JUndefined (obj !! "query"))
                          then JObj obj
                          else JObj {[ "query" := JObj obj ]})).
Proof.
  cbv zeta. destruct (js_truthy query) eqn:Ht.
  - rewrite (query_params_truthy query o Ht).
    destruct query as [| |b|n|s|obj]; cbn [p_index p_type p_source p_q p_body];
      try discriminate Ht; repeat split;
      try solve [ reflexivity | discriminate | eauto
                | intros [? ?]; discriminate
                | intros ? [=]
                | intros ? [= <-] ?; split; reflexivity
                | intros ? [= <-]; reflexivity
                | congruence
                | match goal with
                  | H : JObj _ = JObj _ |- _ => injection H as <-; reflexivity
                  end ].
  - rewrite (query_params_falsy query o Ht). cbn [p_index p_type p_source p_q p_body].
    repeat split;
      try solve [ reflexivity | discriminate | intros [? ?]; discriminate ].
    all: subst query; cbn in Ht; try discriminate Ht.
    all: apply negb_false_iff, bool_decide_eq_true in Ht; congruence.
Qed.

(** How a call overrides a configured entry. *)
Lemma override_truthy given configured :
  js_truthy given = true -> override given configured = given.
Proof.
  intros Ht. unfold override, js_or. rewrite Ht.
  destruct given as [| |[|]| | |]; try reflexivity; discriminate.
Qed.

Lemma override_default given configured :
  given <> JBool false -> js_truthy given = false ->
  override given configured = configured.
Proof.
  intros Hnf Ht. unfold override, js_or. rewrite Ht.
  destruct given as [| |[|]| | |]; try reflexivity; congruence.
Qed.

(** X18. [count] sends one request. An error rejects the call; a result
    object resolves it, with its [count] entry when counting only is
    wanted and as a whole otherwise. [countOnly: false] in
    the call wins over a configured [countOnly], and so does a truthy one;
    without an entry the configuration decides. *)
Theorem count_result query options o x (entries : JsObj) err rest :
  let given := js_get (call_options options) "countOnly" in
  let result := JObj entries in
  fst (count query options o x (ReplyOk result :: rest))
    = [ClientCount (query_params query o)]
  /\ count query options o x (ReplyErr err :: rest)
     = ([ClientCount (query_params query o)], Rejected err)
  /\ (given = JBool false ->
      snd (count query options o x (ReplyOk result :: rest)) = Resolved result)
  /\ (js_truthy given = true ->
      snd (count query options o x (ReplyOk result :: rest))
      = Resolved (js_get result "count"))
  /\ (given <> JBool false -> js_truthy given = false ->
      snd (count query options o x (ReplyOk result :: rest))
      = Resolved (if js_truthy (countOnly x) then js_get result "count"
                  else result)).
Proof.
  intros given result. unfold count. fold given. cbn [fst snd].
  split; [reflexivity|]. split; [reflexivity|]. repeat split.
  - intros ->. reflexivity.
  - intros Ht. rewrite (override_truthy _ _ Ht), Ht. reflexivity.
  - intros Hnf Ht. rewrite (override_default _ _ Hnf Ht). reflexivity.
Qed.

(** X19. Whatever is given to [synchronize], what reaches [model.find] is a
    truthy condition and no function: a callback in the place of the
    conditions, the projection or the options is taken out, and every
    argument from its place on is dropped (the conditions become [{}],
    projection and options [null]); arguments before it are kept. *)
Theorem synchronize_args_forms conditions projection options :
  let r := synchronize_args conditions projection options in
  js_truthy (fst (fst r)) = true
  /\ snd (fst r) <> ArgFunction /\ snd r <> ArgFunction
  /\ (conditions = ArgFunction ->
      r = (JObj ∅, ArgValue JNull, ArgValue JNull))
  /\ (forall c, conditions = ArgValue c -> projection = ArgFunction ->
      r = (js_or c (JObj ∅), ArgValue JNull, ArgValue JNull))
  /\ (forall c p, conditions = ArgValue c -> projection = ArgValue p ->
      r = (js_or c (JObj ∅), ArgValue p,
           match options with
           | ArgFunction => ArgValue JNull
           | ArgValue _ => options
           end)).
Proof.
  cbv zeta. unfold synchronize_args.
  assert (Hor : forall c, js_truthy (js_or c (JObj ∅)) = true).
  { intros c. unfold js_or. destruct (js_truthy c) eqn:E; [exact E | reflexivity]. }
  destruct conditions as [|c], projection as [|p], options as [|op]; cbn [fst snd];
    repeat split; try discriminate; try reflexivity; try apply Hor;
    try (intros ? [= <-] ?); try (intros ? ? [= <-] [= <-]); try reflexivity;
    try discriminate.
Qed.

Section SearchFacts.

Context (ObjectId : string -> option string).

(** What [index_users] holds under a key: a user of the list with that
    id, or nothing when no user has it. *)
Lemma index_users_acc (users : list Doc) (m : gmap string Doc) (k : string) :
  (k ∉ _id <$> users ->
   foldl (fun acc user => <[_id user := user]> acc) m users !! k = m !! k)
  /\ (forall u,
      foldl (fun acc user => <[_id user := user]> acc) m users !! k = Some u ->
      (u ∈ users /\ _id u = k) \/ m !! k = Some u).
Proof.
  revert m. induction users as [|x l IH]; intros m; cbn [foldl fmap list_fmap].
  - split; auto.
  - destruct (IH (<[_id x := x]> m)) as [IH1 IH2]. split.
    + intros Hn. rewrite IH1.
      * apply lookup_insert_ne. intros E. apply Hn. rewrite <- E. left.
      * intros H. apply Hn. right. exact H.
    + intros u Hu. destruct (IH2 u Hu) as [[Hin Hid]|Hm].
      * left. split; [right; exact Hin | exact Hid].
      * destruct (decide (_id x = k)) as [E|E].
        -- subst k. rewrite lookup_insert_eq in Hm. injection Hm as <-.
           left. split; [left | reflexivity].
        -- rewrite lookup_insert_ne in Hm by exact E. right. exact Hm.
Qed.

Lemma index_users_nodup (users : list Doc) (m : gmap string Doc) (u : Doc) :
  NoDup (_id <$> users) -> u ∈ users ->
  foldl (fun acc user => <[_id user := user]> acc) m users !! _id u = Some u.
Proof.
  revert m. induction users as [|x l IH]; intros m Hnd Hin; [inversion Hin|].
  cbn [fmap list_fmap] in Hnd. apply NoDup_cons in Hnd as [Hx Hnd].
  cbn [foldl]. apply elem_of_cons in Hin as [->|Hin].
  - rewrite (proj1 (index_users_acc l _ _) Hx). apply lookup_insert_eq.
  - apply IH; assumption.
Qed.

(** With distinct ids the table does not depend on the order of the users. *)
Lemma index_users_perm (users users' : list Doc) :
  NoDup (_id <$> users) -> users ≡ₚ users' ->
  index_users users = index_users users'.
Proof.
  intros Hnd Hp.
  assert (Hnd' : NoDup (_id <$> users')) by (rewrite <- Hp; exact Hnd).
  apply map_eq. intros k. unfold index_users.
  destruct (foldl _ ∅ users !! k) as [u|] eqn:E.
  - destruct (proj2 (index_users_acc users ∅ k) u E) as [[Hin Hid]|H];
      [|rewrite lookup_empty in H; discriminate].
    subst k. symmetry. apply index_users_nodup; [exact Hnd'|].
    rewrite <- Hp. exact Hin.
  - destruct (foldl _ ∅ users' !! k) as [u'|] eqn:E'; [|reflexivity].
    destruct (proj2 (index_users_acc users' ∅ k) u' E') as [[Hin Hid]|H];
      [|rewrite lookup_empty in H; discriminate].
    subst k. rewrite index_users_nodup in E; [discriminate | exact Hnd|].
    rewrite Hp. exact Hin.
Qed.

(** X20. Whatever it is asked and answered, [search] sends its search
    request first, which asks the backend to leave the sources out exactly
    when the hits are to be hydrated, and after it at most one query to
    the store. *)
Theorem search_sends_request_first query options o x backend store :
  exists rest,
    fst (search ObjectId query options o x backend store)
    = ClientSearch
        {| p_index := index o; p_type := type o;
           p_q := p_q (query_params query o);
           p_body := p_body (query_params query o);
           p_source :=
             if js_truthy (override (js_get (call_options options) "hydrate")
                             (hydrate x))
             then Some false else None |}
      :: rest
    /\ (rest = [] \/ exists ids select opts, rest = [ModelFind ids select opts]).
Proof.
  unfold search.
  set (h := override (js_get (call_options options) "hydrate") (hydrate x)).
  set (i := override (js_get (call_options options) "idsOnly") (idsOnly x)).
  assert (Hp : (if js_truthy h
                then {| p_index := p_index (query_params query o);
                        p_type := p_type (query_params query o);
                        p_q := p_q (query_params query o);
                        p_body := p_body (query_params query o);
                        p_source := Some false |}
                else query_params query o)
               = {| p_index := index o; p_type := type o;
                    p_q := p_q (query_params query o);
                    p_body := p_body (query_params query o);
                    p_source := if js_truthy h then Some false else None |}).
  { unfold query_params. destruct (js_truthy h), (js_or query (JObj ∅)); reflexivity. }
  rewrite Hp. cbv zeta.
  assert (Hone : forall r : Settled Found,
    exists rest, fst ([ClientSearch
        {| p_index := index o; p_type := type o;
           p_q := p_q (query_params query o);
           p_body := p_body (query_params query o);
           p_source := if js_truthy h then Some false else None |}], r)
      = ClientSearch
        {| p_index := index o; p_type := type o;
           p_q := p_q (query_params query o);
           p_body := p_body (query_params query o);
           p_source := if js_truthy h then Some false else None |} :: rest
      /\ (rest = [] \/ exists ids select opts, rest = [ModelFind ids select opts])).
  { intros r. exists []. split; [reflexivity | left; reflexivity]. }
  assert (Htwo : forall ids select opts (r : Settled Found),
    exists rest, fst ([ClientSearch
        {| p_index := index o; p_type := type o;
           p_q := p_q (query_params query o);
           p_body := p_body (query_params query o);
           p_source := if js_truthy h then Some false else None |};
        ModelFind ids select opts], r)
      = ClientSearch
        {| p_index := index o; p_type := type o;
           p_q := p_q (query_params query o);
           p_body := p_body (query_params query o);
           p_source := if js_truthy h then Some false else None |} :: rest
      /\ (rest = [] \/ exists ids select opts, rest = [ModelFind ids select opts])).
  { intros ids select opts r. eexists. split; [reflexivity | right; eauto]. }
  destruct backend as [[err|result]|]; try apply Hone.
  destruct (negb (js_truthy h) && negb (js_truthy i)); try apply Hone.
  destruct (mapM ObjectId (hit_ids result)) as [ids|]; try apply Hone.
  destruct (js_truthy i); try apply Hone.
  destruct (negb (js_truthy (hits_total result))); try apply Hone.
  destruct store as [[err|users]|]; try apply Htwo.
  destruct (js_truthy (js_or (js_get h "docsOnly") (JBool false))); apply Htwo.
Qed.

(** X21. [search] asks the store for documents only to hydrate hits: the
    backend answered with a result whose total is truthy, hydration is
    wanted, the ids alone are not, and every hit's id makes an ObjectId.
    In every other case the search request is its only request. Wanting
    the ids alone resolves with the ObjectIds of the hits in rank order,
    hydration wanted or not; a hit whose id makes no ObjectId leaves the
    call unsettled when ids or documents are wanted, and does not matter
    when neither is; an error of the backend rejects the call. *)
Theorem search_asks_store_to_hydrate query options o x backend store :
  let wants_docs := js_truthy (override (js_get (call_options options) "hydrate")
                                 (hydrate x)) in
  let wants_ids := js_truthy (override (js_get (call_options options) "idsOnly")
                                (idsOnly x)) in
  ((exists ids select opts,
      ModelFind ids select opts ∈ fst (search ObjectId query options o x backend store))
   <-> exists result,
         backend = Some (SearchOk result)
         /\ wants_docs = true /\ wants_ids = false
         /\ js_truthy (hits_total result) = true
         /\ Forall (fun id => is_Some (ObjectId id)) (hit_ids result))
  /\ (forall result ids, backend = Some (SearchOk result) -> wants_ids = true ->
      Forall2 (fun id key => ObjectId id = Some key) (hit_ids result) ids ->
      snd (search ObjectId query options o x backend store)
      = Resolved (FoundIds ids))
  /\ (forall result id, backend = Some (SearchOk result) ->
      wants_docs = true \/ wants_ids = true ->
      id ∈ hit_ids result -> ObjectId id = None ->
      snd (search ObjectId query options o x backend store) = Pending)
  /\ (forall result, backend = Some (SearchOk result) ->
      wants_docs = false -> wants_ids = false ->
      snd (search ObjectId query options o x backend store)
      = Resolved (FoundResult result))
  /\ (forall err, backend = Some (SearchErr err) ->
      snd (search ObjectId query options o x backend store) = Rejected err).
Proof.
  cbv zeta. unfold search.
  set (h := override (js_get (call_options options) "hydrate") (hydrate x)).
  set (i := override (js_get (call_options options) "idsOnly") (idsOnly x)).
  set (params := if js_truthy h then _ else _).
  assert (Hno : forall ids select opts,
    ~ ModelFind ids select opts ∈ [ClientSearch params]).
  { intros ids select opts H. apply list_elem_of_singleton in H. discriminate. }
  split; [|split; [|split; [|split]]].
  - split.
    + intros (ids & select & opts & Hin).
      destruct backend as [[err|result]|]; cbn [fst] in Hin;
        try (exfalso; exact (Hno _ _ _ Hin)).
      destruct (js_truthy h) eqn:Hh, (js_truthy i) eqn:Hi; cbn [negb andb] in Hin;
        try (exfalso; exact (Hno _ _ _ Hin)).
      * destruct (mapM ObjectId (hit_ids result)); exfalso; exact (Hno _ _ _ Hin).
      * destruct (mapM ObjectId (hit_ids result)) as [keys|] eqn:Ek;
          [|exfalso; exact (Hno _ _ _ Hin)].
        destruct (js_truthy (hits_total result)) eqn:Ht; cbn [negb] in Hin;
          try (exfalso; exact (Hno _ _ _ Hin)).
        exists result. repeat split; auto.
        apply mapM_is_Some. rewrite Ek. eauto.
      * destruct (mapM ObjectId (hit_ids result)); exfalso; exact (Hno _ _ _ Hin).
    + intros (result & -> & Hh & Hi & Ht & Hk). rewrite Hh, Hi. cbn [negb andb].
      apply mapM_is_Some in Hk as [keys Ek]. rewrite Ek, Ht. cbn [negb].
      eexists _, _, _.
      destruct store as [[err|users]|]; cbn [fst]; [| |right; left].
      * right; left.
      * destruct (js_truthy (js_or (js_get h "docsOnly") (JBool false)));
          cbn [fst]; right; left.
  - intros result ids -> Hi Hk. rewrite Hi, andb_false_r.
    apply mapM_Some in Hk. rewrite Hk. reflexivity.
  - intros result id -> Hw Hin Hnone.
    assert (Ek : mapM ObjectId (hit_ids result) = None).
    { destruct (mapM ObjectId (hit_ids result)) as [keys|] eqn:Ek; [|reflexivity].
      apply mapM_Some in Ek.
      apply list_elem_of_lookup in Hin as [n Hn].
      destruct (Forall2_lookup_l _ _ _ _ _ Ek Hn) as (key & _ & Hkey).
      congruence. }
    rewrite Ek.
    destruct Hw as [Hw|Hw]; rewrite Hw; cbn [negb andb]; rewrite ?andb_false_r;
      reflexivity.
  - intros result -> Hh Hi. rewrite Hh, Hi. reflexivity.
  - intros err ->. reflexivity.
Qed.

(** X22. Hydrated documents come in the rank order of the hits: when
    only the documents are wanted and every hit's id makes an ObjectId,
    the result has one entry for each hit, which is a document the store
    returned under that hit's ObjectId, or undefined when it returned
    none; and when the documents the store returned have distinct ids,
    the order in which it returned them does not matter. *)
Theorem search_hydrates_in_rank_order query options o x result users users' :
  let h := override (js_get (call_options options) "hydrate") (hydrate x) in
  js_truthy h = true ->
  js_truthy (override (js_get (call_options options) "idsOnly") (idsOnly x)) = false ->
  js_truthy (hits_total result) = true ->
  js_truthy (js_get h "docsOnly") = true ->
  Forall (fun id => is_Some (ObjectId id)) (hit_ids result) ->
  exists docs,
    snd (search ObjectId query options o x (Some (SearchOk result))
           (Some (FindOk users)))
    = Resolved (FoundDocs docs)
    /\ length docs = length (hit_ids result)
    /\ (forall n id, hit_ids result !! n = Some id ->
        exists key found,
          ObjectId id = Some key
          /\ docs !! n = Some found
          /\ (forall u, found = Some u -> u ∈ users /\ _id u = key)
          /\ (found = None <-> key ∉ _id <$> users))
    /\ (NoDup (_id <$> users) -> users ≡ₚ users' ->
        search ObjectId query options o x (Some (SearchOk result))
          (Some (FindOk users'))
        = search ObjectId query options o x (Some (SearchOk result))
            (Some (FindOk users))).
Proof.
  intros h Hh Hi Ht Hd Hk.
  assert (Hdo : js_truthy (js_or (js_get h "docsOnly") (JBool false)) = true).
  { unfold js_or. rewrite Hd. exact Hd. }
  apply mapM_is_Some in Hk as [keys Ek].
  pose proof (proj1 (mapM_Some _ _ _) Ek) as Hkeys.
  exists ((fun id => index_users users !! id) <$> keys).
  split; [|split; [|split]].
  - unfold search. fold h. rewrite Hh, Hi. cbn [negb andb].
    rewrite Ek, Ht. cbn [negb]. rewrite Hdo. reflexivity.
  - rewrite length_fmap. symmetry. exact (Forall2_length _ _ _ Hkeys).
  - intros n id Hn.
    destruct (Forall2_lookup_l _ _ _ _ _ Hkeys Hn) as (key & Hkn & Hkey).
    exists key, (index_users users !! key).
    split; [exact Hkey|]. split; [|split].
    + rewrite list_lookup_fmap, Hkn. reflexivity.
    + intros u Hu. unfold index_users in Hu.
      destruct (proj2 (index_users_acc users ∅ _) u Hu) as [H|H]; [exact H|].
      rewrite lookup_empty in H. discriminate.
    + split.
      * intros Hnone Hin. apply list_elem_of_fmap in Hin as (u & Hid & Hin).
        destruct (index_users users !! _id u) as [u'|] eqn:E;
          [rewrite Hid in Hnone; congruence|].
        assert (Hex : exists v, v ∈ users /\ _id v = _id u) by eauto.
        clear -E Hex. unfold index_users in E. revert E.
        generalize (∅ : gmap string Doc).
        induction users as [|y l IH]; intros m E;
          [destruct Hex as (v & Hv & _); inversion Hv|].
        cbn [foldl] in E. destruct (decide (_id u ∈ _id <$> l)) as [Hl|Hl].
        -- apply (IH) in E; [exact E|].
           apply list_elem_of_fmap in Hl as (v & Hv1 & Hv2). eauto.
        -- rewrite (proj1 (index_users_acc l _ _) Hl) in E.
           destruct Hex as (v & Hv & Hvid).
           apply elem_of_cons in Hv as [->|Hv].
           ++ rewrite Hvid, lookup_insert_eq in E. discriminate.
           ++ apply Hl. apply list_elem_of_fmap. eauto.
      * intros Hn'. unfold index_users.
        rewrite (proj1 (index_users_acc users ∅ _) Hn'). apply lookup_empty.
  - intros Hnd Hp. unfold search. fold h. rewrite Hh, Hi. cbn [negb andb].
    rewrite Ek, Ht. cbn [negb]. rewrite Hdo.
    rewrite (index_users_perm users users' Hnd Hp). reflexivity.
Qed.

End SearchFacts.

Section EsOptionsFacts.

Context (lcFirst : JsVal -> JsVal).
Context (client_of : Options -> JsVal).
Context (generateMapping : JsVal -> JsVal -> JsVal).
Context (version : JsVal).

(** X23. [esOptions] takes the index from the collection and the type
    from the model only where the options name none. It throws when the
    index is still missing, or else when the type is, with the message of
    the one that is missing, and has then built neither client, bulker nor
    mapping, though the names it took stay in the options. Otherwise it
    returns the options as they now are, in which a client and a mapping
    that were given are kept, and the bulker is a queue it has just
    constructed when there are bulk settings, and left alone when there
    are none. *)
Theorem esOptions_names this options made :
  let index := if js_truthy (o_index options) then o_index options
               else collection_name this in
  let type := if js_truthy (o_type options) then o_type options
              else lcFirst (js_or (modelName this) (constructor_modelName this)) in
  let call := esOptions lcFirst client_of generateMapping version
                this options made in
  let after := fst (fst call) in
  let outcome := snd (fst call) in
  o_index after = index /\ o_type after = type /\ o_bulk after = o_bulk options
  /\ (js_truthy index = false ->
      outcome = inl "Missing collection name to build ES index")
  /\ (js_truthy index = true -> js_truthy type = false ->
      outcome = inl "Missing model name to build ES type")
  /\ (forall message, outcome = inl message ->
      o_client after = o_client options /\ o_bulker after = o_bulker options
      /\ o_mapping after = o_mapping options /\ snd call = made)
  /\ (js_truthy index = true -> js_truthy type = true ->
      outcome = inr after
      /\ (js_truthy (o_client options) = true -> o_client after = o_client options)
      /\ (js_truthy (o_mapping options) = true ->
          o_mapping after = o_mapping options)
      /\ (js_truthy (o_bulk options) = true ->
          o_bulker after = BulkerMade made (o_client after) (o_bulk options)
          /\ snd call = S made)
      /\ (js_truthy (o_bulk options) = false ->
          o_bulker after = o_bulker options /\ snd call = made)).
Proof.
  cbv zeta. unfold esOptions. destruct options as [i t c b k m]. cbn.
  destruct (js_truthy i) eqn:Hi; cbn;
    [destruct (js_truthy t) eqn:Ht; cbn; rewrite ?Hi, ?Ht; cbn
    |destruct (js_truthy (collection_name this)) eqn:Hn; cbn;
     (destruct (js_truthy t) eqn:Ht; cbn; rewrite ?Hn, ?Ht; cbn)].
  all: try (destruct (js_truthy (lcFirst _)) eqn:Hl; cbn; rewrite ?Hi, ?Hn, ?Hl; cbn).
  all: try (destruct (js_truthy c) eqn:Hc; cbn;
            destruct (js_truthy b) eqn:Hb; cbn;
            destruct (js_truthy m) eqn:Hm; cbn).
  all: repeat split; try congruence; try discriminate; auto.
Qed.

(** A call on options that have their names, a client and a mapping: only
    the bulker changes, when there are bulk settings. *)
Lemma esOptions_again this o made :
  js_truthy (o_index o) = true -> js_truthy (o_type o) = true ->
  js_truthy (o_client o) = true -> js_truthy (o_mapping o) = true ->
  esOptions lcFirst client_of generateMapping version this o made
  = if js_truthy (o_bulk o)
    then (mkOptions (o_index o) (o_type o) (o_client o) (o_bulk o)
            (BulkerMade made (o_client o) (o_bulk o)) (o_mapping o),
          inr (mkOptions (o_index o) (o_type o) (o_client o) (o_bulk o)
                 (BulkerMade made (o_client o) (o_bulk o)) (o_mapping o)),
          S made)
    else (o, inr o, made).
Proof.
  unfold esOptions. destruct o as [i t c b k m]. cbn.
  intros Hi Ht Hc Hm.
  repeat (first [rewrite Hi | rewrite Ht | rewrite Hc | rewrite Hm]; cbn).
  destruct (js_truthy b); cbn; rewrite ?Hm; cbn; reflexivity.
Qed.

(** What [esOptions] returns is what it leaves in the options, with the
    names, a mapping and, for bulk settings, the queue it constructed. *)
Lemma esOptions_returned this options made after r made' :
  esOptions lcFirst client_of generateMapping version this options made
  = (after, inr r, made') ->
  r = after
  /\ js_truthy (o_index after) = true /\ js_truthy (o_type after) = true
  /\ js_truthy (o_mapping after) = true
  /\ (js_truthy (o_bulk after) = true ->
      o_bulker after = BulkerMade made (o_client after) (o_bulk after)
      /\ made' = S made).
Proof.
  unfold esOptions. destruct options as [i t c b k m]. cbn.
  destruct (js_truthy i) eqn:Hi; cbn;
    [destruct (js_truthy t) eqn:Ht; cbn; rewrite ?Hi, ?Ht; cbn
    |destruct (js_truthy (collection_name this)) eqn:Hn; cbn;
     (destruct (js_truthy t) eqn:Ht; cbn; rewrite ?Hn, ?Ht; cbn)].
  all: try (destruct (js_truthy (lcFirst _)) eqn:Hl; cbn; rewrite ?Hi, ?Hn, ?Hl; cbn).
  all: try discriminate.
  all: destruct (js_truthy c) eqn:Hc; cbn;
       destruct (js_truthy b) eqn:Hb; cbn;
       destruct (js_truthy m) eqn:Hm; cbn.
  all: intros H; injection H as <- <- <-; cbn.
  all: repeat split; auto; congruence.
Qed.

(** X24. Once [esOptions] has returned options whose client is an object,
    a later call, on whatever model or document, returns options with the
    same index, type, client, bulk settings and mapping, so the names are
    those the first call took. Without bulk settings it changes nothing.
    With bulk settings it puts a queue constructed anew, for the same
    client and settings, in the place of the one the call before had
    constructed: every call makes a bulker of its own. *)
Theorem esOptions_settled this options made after r made' this' :
  esOptions lcFirst client_of generateMapping version this options made
  = (after, inr r, made') ->
  js_truthy (o_client r) = true ->
  let again := esOptions lcFirst client_of generateMapping version
                 this' after made' in
  let after' := fst (fst again) in
  r = after
  /\ snd (fst again) = inr after'
  /\ o_index after' = o_index after /\ o_type after' = o_type after
  /\ o_client after' = o_client after /\ o_bulk after' = o_bulk after
  /\ o_mapping after' = o_mapping after
  /\ (js_truthy (o_bulk after) = false -> again = (after, inr after, made'))
  /\ (js_truthy (o_bulk after) = true ->
      o_bulker after = BulkerMade made (o_client after) (o_bulk after)
      /\ o_bulker after' = BulkerMade (S made) (o_client after) (o_bulk after)
      /\ o_bulker after' <> o_bulker after
      /\ snd again = S (S made)).
Proof.
  intros H Hc again after'.
  destruct (esOptions_returned _ _ _ _ _ _ H) as (-> & Hi & Ht & Hm & Hb).
  unfold after', again. rewrite (esOptions_again this' after made' Hi Ht Hc Hm).
  destruct (js_truthy (o_bulk after)) eqn:Eb; cbn.
  - destruct (Hb eq_refl) as [Hk ->].
    repeat split; auto; try discriminate.
    rewrite Hk. intros E. injection E as E. lia.
  - repeat split; auto; discriminate.
Qed.

End EsOptionsFacts.

(** * The statements at sample inputs *)

(** An update answered by 404 and then by a success: two requests, resolved;
    the same answers without the update flag: one request, rejected. *)
Lemma _indexDoc_404_retried_once_witness :
  _indexDoc "a1" (fields alice) users_plain (UpdBool true)
      (backend [ReplyErr not_found; ReplyOk acknowledged])
    = (Resolved acknowledged,
       {| replies := [];
          trace := [Call (index_request "a1" (fields alice) users_plain (UpdBool true));
                    Call (index_request "a1" (fields alice) users_plain UpdUndefined)] |})
  /\ _indexDoc "a1" (fields alice) users_plain (UpdBool false)
      (backend [ReplyErr not_found; ReplyOk acknowledged])
    = (Rejected not_found,
       {| replies := [ReplyOk acknowledged];
          trace := [Call (index_request "a1" (fields alice) users_plain (UpdBool false))] |}).
Proof.
  split.
  - exact (proj1 (proj1 (_indexDoc_404_retried_once "a1" (fields alice) users_plain
                           (UpdBool true) not_found [ReplyOk acknowledged] []
                           eq_refl) eq_refl)).
  - exact (proj1 (proj2 (_indexDoc_404_retried_once "a1" (fields alice) users_plain
                           (UpdBool false) not_found [ReplyOk acknowledged] []
                           eq_refl) eq_refl)).
Defined.

(** C4 fails on the code: a delete answered by 404 is rejected. *)
Lemma removeDoc_rejects_not_found :
  is_404 not_found = true
  /\ fst (removeDoc alice users_plain (backend [ReplyErr not_found]))
     = Rejected not_found.
Proof. split; reflexivity. Qed.

(** Both encodings for the fields [a] and [b], written out. *)
Lemma unsetFields_encodings_witness :
  trace (snd (unsetFields alice users_script (FieldsArray ["a"; "b"]) (backend [])))
    = [Call {| rq_method := MUpdate; rq_index := "users"; rq_type := "user";
               rq_id := "a1";
               rq_body :=
                 Some (JObj {[ "script" :=
                   JStr ("ctx._source.remove("
                         +:+ String "034"%char ("a"
                         +:+ String "034"%char (");ctx._source.remove("
                         +:+ String "034"%char ("b"
                         +:+ String "034"%char ")")))) ]}) |}]
  /\ trace (snd (unsetFields alice users_plain (FieldsArray ["a"; "b"]) (backend [])))
    = [Call {| rq_method := MUpdate; rq_index := "users"; rq_type := "user";
               rq_id := "a1";
               rq_body :=
                 Some (JObj {[ "doc" :=
                   JObj {[ "a" := JNull; "b" := JNull ]} ]}) |}].
Proof.
  split.
  - destruct (unsetFields_encodings alice users_script (FieldsArray ["a"; "b"])
                (backend [])) as (body & E & Hs & _).
    destruct (Hs eq_refl) as (src & Hb & Hsrc & _).
    rewrite E, Hb, Hsrc. reflexivity.
  - destruct (unsetFields_encodings alice users_plain (FieldsArray ["a"; "b"])
                (backend [])) as (body & E & _ & Hd).
    destruct (Hd eq_refl) as (d & Hb & Hl).
    assert (Ed : d = {[ "a" := JNull; "b" := JNull ]}).
    { apply map_eq. intros f. rewrite Hl.
      destruct (decide (f = "a")) as [->|Ha]; [reflexivity|].
      destruct (decide (f = "b")) as [->|Hb']; [reflexivity|].
      rewrite decide_False.
      + rewrite lookup_insert_ne by congruence.
        rewrite lookup_singleton_ne by congruence. reflexivity.
      + intros H. apply elem_of_cons in H as [?|H]; [congruence|].
        apply elem_of_cons in H as [?|H]; [congruence|]. inversion H. }
    rewrite E, Hb, Ed. reflexivity.
Defined.

(** C7 fails on the code as stated: the script mode is on and pre-save
    found a field to unset, but the partial update is answered by an error,
    so it is the only request and the error is notified. *)
Lemma postSave_skips_unset_after_failed_index :
  script users_script = true
  /\ _mexp (preSave sample_undefineds alice users_script)
     = Some {| wasNew := Some false; unset := Some ["nickname"] |}
  /\ passes_filter users_script alice = true
  /\ trace (snd (postSave sample_serialize
                   (Some (preSave sample_undefineds alice users_script))
                   users_script (backend [ReplyErr unavailable])))
     = [Call (index_request "a1" (assign_nulls (fields alice) ["nickname"])
                users_script (UpdObject (UnsetArray ["nickname"])));
        Emit OnDoc "es-indexed" (Some unavailable) None;
        Emit OnModel "es-indexed" (Some unavailable) None]
  /\ calls (trace (snd (postSave sample_serialize
                   (Some (preSave sample_undefineds alice users_script))
                   users_script (backend [ReplyErr unavailable]))))
     = [index_request "a1" (assign_nulls (fields alice) ["nickname"])
          users_script (UpdObject (UnsetArray ["nickname"]))].
Proof. repeat split; reflexivity. Qed.

(** A saved record that was not new, script mode, every request answered:
    the partial update, the unset request, the notifications. *)
Lemma postSave_indexes_saved_record_witness :
  calls (trace (snd (postSave sample_serialize
                   (Some (preSave sample_undefineds alice users_script))
                   users_script
                   (backend [ReplyOk acknowledged; ReplyOk acknowledged]))))
  = [index_request "a1" (assign_nulls (fields alice) ["nickname"])
       users_script (UpdObject (UnsetArray ["nickname"]));
     unset_request alice users_script ["nickname"]].
Proof.
  rewrite (proj2 (postSave_indexes_saved_record sample_serialize sample_undefineds
                    alice (preSave sample_undefineds alice users_script)
                    users_script
                    (backend [ReplyOk acknowledged; ReplyOk acknowledged])
                    eq_refl eq_refl)).
  reflexivity.
Defined.

(** C10 fails on the code as stated: a document without context passes
    the filter and its partial update is answered by a 404 error, so a full
    index request follows. *)
Lemma postSave_without_context_indexes_after_404 :
  _mexp alice = None
  /\ passes_filter users_visible alice = true
  /\ is_404 not_found = true
  /\ calls (trace (snd (postSave sample_serialize (Some alice) users_visible
                          (backend [ReplyErr not_found; ReplyOk acknowledged]))))
     = [ {| rq_method := MUpdate; rq_index := "users"; rq_type := "user";
            rq_id := "a1";
            rq_body := Some (JObj {[ "doc" := JObj {[ "name" := JStr "Alice" ]} ]}) |};
         {| rq_method := MIndex; rq_index := "users"; rq_type := "user";
            rq_id := "a1";
            rq_body := Some (JObj {[ "name" := JStr "Alice" ]}) |} ].
Proof. repeat split; reflexivity. Qed.

(** A document without context: passing the filter it is partially
    updated and told indexed, rejected by it the delete request is issued
    between the notifications. *)
Lemma postSave_without_context_witness :
  trace (snd (postSave sample_serialize (Some alice) users_visible
                (backend [ReplyOk acknowledged])))
    = [Call {| rq_method := MUpdate; rq_index := "users"; rq_type := "user";
               rq_id := "a1";
               rq_body :=
                 Some (JObj {[ "doc" := JObj {[ "name" := JStr "Alice" ]} ]}) |};
       Emit OnDoc "es-indexed" None (Some acknowledged);
       Emit OnModel "es-indexed" None (Some acknowledged)]
  /\ trace (snd (postSave sample_serialize (Some dave) users_visible
                (backend [ReplyOk acknowledged])))
    = [Emit OnDoc "es-filtered" None None;
       Emit OnModel "es-filtered" None None;
       Call {| rq_method := MDelete; rq_index := "users"; rq_type := "user";
               rq_id := "d4"; rq_body := None |};
       Emit OnDoc "es-removed" None (Some JUndefined);
       Emit OnModel "es-removed" None (Some JUndefined)].
Proof.
  split.
  - destruct (proj1 (postSave_without_context sample_serialize alice
                users_visible (backend [ReplyOk acknowledged]) eq_refl) eq_refl)
      as (E & _ & Ht).
    rewrite E. cbn [told trace]. rewrite Ht. reflexivity.
  - rewrite (proj2 (postSave_without_context sample_serialize dave
                     users_visible (backend [ReplyOk acknowledged]) eq_refl)
                     eq_refl).
    reflexivity.
Defined.

(** Three pushes with threshold two: one flush of the first two. *)
Lemma push_flushes_at_threshold_witness :
  fst (Bulker.push_all [sample_op "1"; sample_op "2"; sample_op "3"]
         (Bulker.create 2))
    = [[sample_op "1"; sample_op "2"]]
  /\ Bulker.buffer
       (snd (Bulker.push_all [sample_op "1"; sample_op "2"; sample_op "3"]
               (Bulker.create 2)))
    = [sample_op "3"].
Proof.
  pose proof (push_flushes_at_threshold 2
                [sample_op "1"; sample_op "2"; sample_op "3"]
                (Nat.lt_0_succ 1)) as (_ & _ & _ & H).
  apply H. cbn. lia.
Defined.

(** With threshold one the first record triggers a flush: the stream is
    left paused with that request in flight. *)
Lemma stream_paused_per_record_witness :
  paused (onData sample_serialize users_plain alice (start 1)) = true
  /\ exists batch,
       in_flight (onData sample_serialize users_plain alice (start 1)) = [batch].
Proof.
  pose proof (stream_paused_per_record sample_serialize users_plain 1 []
                (start 1) alice
                (onData sample_serialize users_plain alice (start 1))
                eq_refl eq_refl) as (_ & Hp & _ & Hs & _).
  split; [exact Hp|]. exact (proj1 (Hs eq_refl)).
Defined.

(** A record, the close, the answer to the final flush: one refresh. *)
Lemma refresh_exactly_once_witness :
  exists s,
    run sample_serialize users_plain (start 50)
      [StreamData alice; StreamClose; BulkReply None] = Some s
    /\ refreshes (log s) = 1.
Proof.
  eexists. split; [vm_compute; reflexivity|].
  refine (proj1 (proj2 (proj2 (refresh_exactly_once sample_serialize users_plain 50
            [StreamData alice; StreamClose; BulkReply None] _ _))) _ _);
    vm_compute; reflexivity.
Defined.

(** A flush answered by an error while the cursor is open, and a refresh
    answered by an error. *)
Lemma bulk_error_keeps_streaming_witness :
  (exists s s',
     run sample_serialize users_plain (start 1) [StreamData alice] = Some s
     /\ step sample_serialize users_plain s (BulkReply (Some unavailable)) = Some s'
     /\ paused s' = false /\ outcome s' = None)
  /\ (exists s s',
     run sample_serialize users_plain (start 1) [StreamClose] = Some s
     /\ step sample_serialize users_plain s (RefreshReply (ReplyErr unavailable)) = Some s'
     /\ outcome s' = Some (Rejected unavailable)).
Proof.
  split.
  - eexists.
    destruct (proj1 (bulk_error_keeps_streaming sample_serialize users_plain 1
                       [StreamData alice] _ unavailable eq_refl)
                eq_refl ltac:(discriminate))
      as (s' & Hstep & _ & Hp & _ & _ & Ho & _).
    exists s'. auto.
  - eexists.
    destruct (proj2 (bulk_error_keeps_streaming sample_serialize users_plain 1
                       [StreamClose] _ unavailable eq_refl)
                eq_refl)
      as (s' & Hstep & Ho & _).
    exists s'. auto.
Defined.

(** One visible and one hidden record: only the visible one is queued;
    the hidden new record saved through the hooks triggers no request. *)
Lemma filtered_record_not_indexed_witness :
  (exists s,
     run sample_serialize users_visible (start 50)
       [StreamData alice; StreamData carol] = Some s
     /\ requested (log s) ++ Bulker.buffer (bulker s)
        = [index_op sample_serialize users_visible alice])
  /\ calls (trace (snd (postSave sample_serialize
                     (Some (preSave sample_undefineds carol users_visible))
                     users_visible (backend [ReplyOk acknowledged]))))
     = [].
Proof.
  split.
  - eexists. split; [reflexivity|].
    apply (proj1 (filtered_record_not_indexed sample_serialize sample_undefineds
                    users_visible 50 [StreamData alice; StreamData carol]
                    _ carol carol carol (backend []))).
    reflexivity.
  - rewrite (proj1 (proj2 (proj2 (filtered_record_not_indexed sample_serialize
               sample_undefineds users_visible 50 [] (start 50) carol carol
               (preSave sample_undefineds carol users_visible)
               (backend [ReplyOk acknowledged]))) eq_refl eq_refl) eq_refl).
    reflexivity.
Defined.

(** Five records with threshold two: flushes of two, two and one record,
    each answered before the cursor goes on, then the single refresh,
    whose answer resolves the call. *)
Example synchronize_five_records :
  exists s,
    run sample_serialize users_plain (start 2)
      [StreamData alice; StreamData bob; BulkReply None;
       StreamData alice; StreamData bob; BulkReply None;
       StreamData alice; StreamClose; BulkReply None;
       RefreshReply (ReplyOk acknowledged)] = Some s
    /\ batch_sizes (log s) = [2; 2; 1]
    /\ refreshes (log s) = 1
    /\ outcome s = Some (Resolved acknowledged).
Proof. eexists. split; [vm_compute; reflexivity|]. vm_compute. repeat split. Qed.

(** An update answered by an error that is no 404: the one request,
    rejected, and the second answer left untouched. *)
Lemma _indexDoc_single_request_witness :
  _indexDoc "a1" (fields alice) users_plain (UpdBool true)
      (backend [ReplyErr unavailable; ReplyOk acknowledged])
    = (Rejected unavailable,
       {| replies := [ReplyOk acknowledged];
          trace := [Call (index_request "a1" (fields alice) users_plain
                            (UpdBool true))] |}).
Proof.
  refine (_indexDoc_single_request "a1" (fields alice) users_plain (UpdBool true)
            (backend [ReplyErr unavailable; ReplyOk acknowledged]) _).
  intros err H. injection H as <-. reflexivity.
Defined.

(** The nickname given as a string and as a one-element list. *)
Lemma indexDoc_unset_forms_witness :
  indexDoc sample_serialize alice users_plain
      (UpdObject (UnsetString "nickname")) (backend [ReplyOk acknowledged])
    = indexDoc sample_serialize alice users_plain
        (UpdObject (UnsetArray ["nickname"])) (backend [ReplyOk acknowledged]).
Proof.
  apply (proj1 (indexDoc_unset_forms sample_serialize alice users_plain
                  (backend [ReplyOk acknowledged]) "nickname")).
  discriminate.
Defined.

(** A list with a repetition in doc mode, and two lists in script mode. *)
Lemma unset_body_of_lists_witness :
  unset_body users_plain ["a"; "b"; "a"] = unset_body users_plain ["b"; "a"]
  /\ unset_body users_script (["a"] ++ ["b"])
     = {[ "script" := JStr (String.concat ";" (removal <$> ["a"]) +:+ ";"
                            +:+ String.concat ";" (removal <$> ["b"])) ]}.
Proof.
  split.
  - apply (proj1 (unset_body_of_lists users_plain ["a"; "b"; "a"] ["b"; "a"]));
      [reflexivity|].
    intros f. rewrite !elem_of_cons. tauto.
  - apply (proj2 (unset_body_of_lists users_script ["a"] ["b"]));
      [reflexivity | discriminate | discriminate].
Defined.

(** Bob and Carol were captured as new; the second post-save opens with
    an update for Bob, and issues the delete of the hidden Carol. *)
Lemma postSave_consumes_context_witness :
  _mexp (preSave sample_undefineds bob users_visible)
    = Some {| wasNew := Some true; unset := None |}
  /\ (exists rest,
       trace (snd (postSave sample_serialize
                     (fst (postSave sample_serialize
                             (Some (preSave sample_undefineds bob users_visible))
                             users_visible (backend [ReplyOk acknowledged])))
                     users_visible (backend [ReplyOk acknowledged])))
       = Call {| rq_method := MUpdate; rq_index := "users"; rq_type := "user";
                 rq_id := "b2";
                 rq_body := Some (JObj {[ "doc" := JObj (fields bob) ]}) |}
         :: rest)
  /\ (exists rest,
       trace (snd (postSave sample_serialize
                     (fst (postSave sample_serialize
                             (Some (preSave sample_undefineds carol users_visible))
                             users_visible (backend [])))
                     users_visible (backend [ReplyOk acknowledged])))
       = Emit OnDoc "es-filtered" None None
         :: Emit OnModel "es-filtered" None None
         :: Call {| rq_method := MDelete; rq_index := "users"; rq_type := "user";
                    rq_id := "c3"; rq_body := None |}
         :: rest).
Proof.
  split; [reflexivity|]. split.
  - exact (proj1 (proj2 (proj2 (postSave_consumes_context sample_serialize
                    (preSave sample_undefineds bob users_visible) users_visible
                    (backend [ReplyOk acknowledged])
                    (backend [ReplyOk acknowledged])))) eq_refl).
  - exact (proj2 (proj2 (proj2 (postSave_consumes_context sample_serialize
                    (preSave sample_undefineds carol users_visible) users_visible
                    (backend [])
                    (backend [ReplyOk acknowledged])))) eq_refl).
Defined.

(** A hidden record that was not new: the delete request and no other. *)
Lemma postSave_indexes_or_deletes_witness :
  exists new,
    trace (snd (postSave sample_serialize (Some dave) users_visible
                  (backend [ReplyOk acknowledged]))) = new
    /\ calls new = [ {| rq_method := MDelete; rq_index := "users";
                         rq_type := "user"; rq_id := "d4"; rq_body := None |} ].
Proof.
  destruct (postSave_indexes_or_deletes sample_serialize dave users_visible
              (backend [ReplyOk acknowledged])) as (new & Ht & _ & Hd).
  exists new. split; [exact Ht | exact (Hd eq_refl)].
Defined.

(** A saved record in script mode with three answers at hand. *)
Lemma postSave_reports_once_witness :
  exists reqs err res,
    trace (snd (postSave sample_serialize
                  (Some (preSave sample_undefineds alice users_script))
                  users_script
                  (backend [ReplyOk acknowledged; ReplyOk acknowledged;
                            ReplyOk acknowledged])))
    = (Call <$> reqs)
        ++ [Emit OnDoc "es-indexed" err res; Emit OnModel "es-indexed" err res]
    /\ (is_Some err <-> res = None).
Proof.
  apply (postSave_reports_once sample_serialize
           (preSave sample_undefineds alice users_script) users_script
           (backend [ReplyOk acknowledged; ReplyOk acknowledged;
                     ReplyOk acknowledged])).
  - reflexivity.
  - cbn. lia.
Defined.

(** A visible and a hidden record: one of each announcement. *)
Lemma every_record_announced_once_witness :
  exists s,
    run sample_serialize users_visible (start 50)
      [StreamData alice; StreamData carol; StreamClose; BulkReply None] = Some s
    /\ emitted "es-bulk-data" (log s) = 1
    /\ emitted "es-bulk-filtered" (log s) = 1.
Proof.
  destruct (run sample_serialize users_visible (start 50)
              [StreamData alice; StreamData carol; StreamClose; BulkReply None])
    as [s|] eqn:E; [|vm_compute in E; discriminate].
  exists s. split; [reflexivity|].
  destruct (every_record_announced_once sample_serialize users_visible 50 _ s E)
    as (Hd & Hf & _).
  split; [exact Hd | exact Hf].
Defined.

(** Two records, a flush answered in between, and the close: two pauses. *)
Lemma one_pause_per_record_witness :
  exists s,
    run sample_serialize users_plain (start 1)
      [StreamData alice; BulkReply None; StreamData bob; BulkReply None;
       StreamClose] = Some s
    /\ pauses (log s) = 2.
Proof.
  destruct (run sample_serialize users_plain (start 1)
              [StreamData alice; BulkReply None; StreamData bob; BulkReply None;
               StreamClose])
    as [s|] eqn:E; [|vm_compute in E; discriminate].
  exists s. split; [reflexivity|].
  exact (proj1 (one_pause_per_record sample_serialize users_plain 1 _ s E)).
Defined.

(** A complete run: the log ends with the refresh and its answer. *)
Lemma refresh_settles_last_witness :
  exists s pre,
    run sample_serialize users_plain (start 50)
      [StreamData alice; StreamClose; BulkReply None;
       RefreshReply (ReplyOk acknowledged)] = Some s
    /\ outcome s = Some (Resolved acknowledged)
    /\ log s = pre ++ [RefreshRequest "users"; SyncResolve acknowledged]
    /\ refreshes pre = 0.
Proof.
  destruct (run sample_serialize users_plain (start 50)
              [StreamData alice; StreamClose; BulkReply None;
               RefreshReply (ReplyOk acknowledged)])
    as [s|] eqn:E; [|vm_compute in E; discriminate].
  pose proof (proj1 (refresh_settles_last sample_serialize users_plain 50 _ s E))
    as H.
  vm_compute in E. injection E as <-.
  destruct (H (Resolved acknowledged) eq_refl) as (pre & r & Hr & Hl & Hn).
  destruct r as [err|res]; [discriminate|]. injection Hr as <-.
  eexists _, pre. split; [reflexivity|]. split; [reflexivity|].
  split; [exact Hl | exact Hn].
Defined.

(** After one buffered record the run can still be completed. *)
Lemma synchronize_can_complete_witness :
  exists s rest s',
    run sample_serialize users_plain (start 50) [StreamData alice] = Some s
    /\ outcome s = None
    /\ run sample_serialize users_plain s rest = Some s'
    /\ outcome s' = Some (Resolved acknowledged)
    /\ length rest <= 4.
Proof.
  destruct (run sample_serialize users_plain (start 50) [StreamData alice])
    as [s|] eqn:E; [|vm_compute in E; discriminate].
  assert (Ho : outcome s = None).
  { vm_compute in E. injection E as <-. reflexivity. }
  destruct (synchronize_can_complete sample_serialize users_plain 50 _ s
              (ReplyOk acknowledged) E Ho) as (rest & s' & Hr & Ho' & _ & Hl).
  exists s, rest, s'. split; [reflexivity|]. auto.
Defined.

(** A missing index, created with the configured settings when a callback
    stands in the place of the settings. *)
Lemma createMapping_settings_witness :
  fst (createMapping ArgFunction users_plain users_extras
         [ReplyOk (JBool false); ReplyOk acknowledged; ReplyOk acknowledged])
  = [IndicesExists "users";
     IndicesCreate "users" (JObj {[ "number_of_shards" := JNum 1 ]});
     IndicesPutMapping "users" "user" (JObj {[ "user" := JObj ∅ ]})].
Proof.
  destruct (createMapping_settings ArgFunction users_plain users_extras
              (JBool false) acknowledged [ReplyOk acknowledged] eq_refl)
    as (body & E & _ & Hb & _).
  rewrite E, (Hb eq_refl eq_refl). reflexivity.
Defined.

(** [refreshDelay: false] in the call: a timer of 0, whatever is configured. *)
Lemma refresh_waits_witness :
  refresh (ArgValue (JObj {[ "refreshDelay" := JBool false ]})) users_plain
    users_extras [ReplyOk acknowledged]
  = ([IndicesRefresh "users"; SetTimeout (JNum 0)], Resolved acknowledged).
Proof.
  destruct (refresh_waits (ArgValue (JObj {[ "refreshDelay" := JBool false ]}))
              users_plain users_extras (ReplyOk acknowledged) [])
    as (_ & (delay & E & H0 & _) & _).
  rewrite E, (H0 eq_refl). reflexivity.
Defined.

(** A query string. *)
Lemma query_params_forms_witness :
  p_q (query_params (JStr "alice") users_plain) = Some "alice"
  /\ p_body (query_params (JStr "alice") users_plain) = None.
Proof.
  destruct (query_params_forms (JStr "alice") users_plain)
    as (_ & _ & _ & _ & H & _).
  apply (H "alice"); [reflexivity | discriminate].
Defined.

(** [countOnly: false] in the call against a configured [countOnly]. *)
Lemma count_result_witness :
  snd (count (JStr "alice") (ArgValue (JObj {[ "countOnly" := JBool false ]}))
         users_plain users_extras [ReplyOk (JObj {[ "count" := JNum 2 ]})])
  = Resolved (JObj {[ "count" := JNum 2 ]}).
Proof.
  destruct (count_result (JStr "alice")
              (ArgValue (JObj {[ "countOnly" := JBool false ]}))
              users_plain users_extras {[ "count" := JNum 2 ]} unavailable [])
    as (_ & _ & H & _).
  exact (H eq_refl).
Defined.

(** The ids alone, wanted by the call: the ObjectIds of the hits, and no
    settling when one of the hits has an id that makes none. *)
Lemma search_asks_store_to_hydrate_witness :
  snd (search sample_ObjectId (JStr "alice")
         (ArgValue (JObj {[ "idsOnly" := JBool true ]}))
         users_plain users_hydrating (Some (SearchOk three_hits)) None)
    = Resolved (FoundIds ["5f1d7f3e2c4a4b0012ab34ce"; "5f1d7f3e2c4a4b0012ab34cd";
                          "5f1d7f3e2c4a4b0012ab34cf"])
  /\ snd (search sample_ObjectId (JStr "alice")
         (ArgValue (JObj {[ "idsOnly" := JBool true ]}))
         users_plain users_hydrating (Some (SearchOk stray_hit)) None)
    = Pending.
Proof.
  split.
  - destruct (search_asks_store_to_hydrate sample_ObjectId (JStr "alice")
                (ArgValue (JObj {[ "idsOnly" := JBool true ]}))
                users_plain users_hydrating (Some (SearchOk three_hits)) None)
      as (_ & H & _).
    apply (H three_hits); [reflexivity | reflexivity |].
    unfold three_hits. cbn [hit_ids].
    repeat first [solve [constructor]
                 | constructor; [vm_compute; reflexivity|]].
  - destruct (search_asks_store_to_hydrate sample_ObjectId (JStr "alice")
                (ArgValue (JObj {[ "idsOnly" := JBool true ]}))
                users_plain users_hydrating (Some (SearchOk stray_hit)) None)
      as (_ & _ & H & _).
    apply (H stray_hit "a1"); [reflexivity | right; reflexivity | | reflexivity].
    right. left.
Defined.

(** Three hits hydrated from a store that has two of the documents, in
    either order. *)
Lemma search_hydrates_in_rank_order_witness :
  (exists docs,
     snd (search sample_ObjectId (JStr "alice") ArgFunction users_plain
            users_hydrating (Some (SearchOk three_hits))
            (Some (FindOk [erin; frank])))
     = Resolved (FoundDocs docs)
     /\ length docs = 3)
  /\ search sample_ObjectId (JStr "alice") ArgFunction users_plain
       users_hydrating (Some (SearchOk three_hits)) (Some (FindOk [frank; erin]))
     = search sample_ObjectId (JStr "alice") ArgFunction users_plain
         users_hydrating (Some (SearchOk three_hits)) (Some (FindOk [erin; frank])).
Proof.
  assert (Hk : Forall (fun id => is_Some (sample_ObjectId id)) (hit_ids three_hits)).
  { unfold three_hits. cbn [hit_ids].
    repeat first [solve [constructor]
                 | constructor; [eexists; vm_compute; reflexivity|]]. }
  destruct (search_hydrates_in_rank_order sample_ObjectId (JStr "alice")
              ArgFunction users_plain users_hydrating three_hits
              [erin; frank] [frank; erin] eq_refl eq_refl eq_refl eq_refl Hk)
    as (docs & E & Hl & _ & Hp).
  split.
  - exists docs. split; [exact E | exact Hl].
  - apply Hp.
    + apply (bool_decide_unpack _). vm_compute. exact I.
    + apply perm_swap.
Defined.

(** A model without a name, and the sample model with no options given. *)
Lemma esOptions_names_witness :
  snd (fst (esOptions sample_lcFirst sample_client sample_generateMapping
              (JNum 5) unnamed_model no_options 0))
    = inl "Missing model name to build ES type"
  /\ exists r,
       snd (fst (esOptions sample_lcFirst sample_client sample_generateMapping
                   (JNum 5) user_model no_options 0)) = inr r
       /\ o_index r = JStr "users" /\ o_type r = JStr "user".
Proof.
  split.
  - destruct (esOptions_names sample_lcFirst sample_client
                sample_generateMapping (JNum 5) unnamed_model no_options 0)
      as (_ & _ & _ & _ & H & _).
    exact (H eq_refl eq_refl).
  - destruct (esOptions_names sample_lcFirst sample_client
                sample_generateMapping (JNum 5) user_model no_options 0)
      as (Hi & Ht & _ & _ & _ & _ & H).
    eexists. split; [exact (proj1 (H eq_refl eq_refl))|].
    split; [exact Hi | exact Ht].
Defined.

(** With bulk settings, the names the user model settled are what the
    post model gets, with a second queue in the place of the first. *)
Lemma esOptions_settled_witness :
  exists after after',
    esOptions sample_lcFirst sample_client sample_generateMapping
      (JNum 5) user_model bulk_options 0 = (after, inr after, 1)
    /\ esOptions sample_lcFirst sample_client sample_generateMapping
         (JNum 5) post_model after 1 = (after', inr after', 2)
    /\ o_index after' = JStr "users" /\ o_type after' = JStr "user"
    /\ o_bulker after
       = BulkerMade 0 (JObj {[ "host" := JStr "localhost:9200" ]})
           (JObj {[ "size" := JNum 100 ]})
    /\ o_bulker after'
       = BulkerMade 1 (JObj {[ "host" := JStr "localhost:9200" ]})
           (JObj {[ "size" := JNum 100 ]}).
Proof.
  destruct (esOptions sample_lcFirst sample_client sample_generateMapping
              (JNum 5) user_model bulk_options 0)
    as [[after r] made'] eqn:E.
  assert (Hr : r = inr after /\ made' = 1
               /\ js_truthy (o_client after) = true
               /\ js_truthy (o_bulk after) = true
               /\ o_index after = JStr "users" /\ o_type after = JStr "user"
               /\ o_client after = JObj {[ "host" := JStr "localhost:9200" ]}
               /\ o_bulk after = JObj {[ "size" := JNum 100 ]}).
  { vm_compute in E. injection E as <- <- <-. repeat split. }
  destruct Hr as (-> & -> & Hc & Hb & Hi & Ht & Hcl & Hbk).
  pose proof (esOptions_settled sample_lcFirst sample_client
                sample_generateMapping (JNum 5) user_model bulk_options 0
                after after 1 post_model E Hc) as H.
  cbv zeta in H.
  destruct H as (_ & Ho & Hi' & Ht' & _ & _ & _ & _ & Hs).
  destruct (Hs Hb) as (Hk & Hk' & _ & Hn).
  destruct (esOptions sample_lcFirst sample_client sample_generateMapping
              (JNum 5) post_model after 1) as [[after' r'] made''] eqn:E'.
  cbn [fst snd] in *. subst r' made''.
  exists after, after'. split; [reflexivity|]. split; [exact E'|].
  rewrite Hi', Ht', Hk, Hk', Hcl, Hbk. repeat split; assumption.
Defined.

(** A callback in the place of the projection. *)
Lemma synchronize_args_forms_witness :
  synchronize_args (ArgValue JUndefined) ArgFunction (ArgValue (JNum 1))
  = (JObj ∅, ArgValue JNull, ArgValue JNull).
Proof.
  destruct (synchronize_args_forms (ArgValue JUndefined) ArgFunction
              (ArgValue (JNum 1))) as (_ & _ & _ & _ & H & _).
  exact (H JUndefined eq_refl eq_refl).
Defined.
